(** * DepthwiseConv1D: a shallow embedding of [dwconv1d/depthwiseconv1d.py]

    The layer is a subclass of Keras' [Conv1D]; its methods [build], [call],
    [compute_output_shape] and [get_config] are embedded below as functions
    in an error monad.  The TensorFlow primitives they call ([array_ops.pad],
    [expand_dims], [tf.tile], [nn.depthwise_conv2d], [squeeze],
    [backend.bias_add], [conv_utils.conv_output_length]) are embedded from
    their documented behaviour, on dense tensors stored as nested lists
    together with their shape. *)

From stdpp Require Import base list gmap strings.
From Stdlib Require Import ZArith Lia.

(** ** Python exceptions and the error monad *)

Inductive PyError : Type :=
  | ValueError | TypeError | NameError | KeyError | IndexError
  | ZeroDivisionError.

Inductive result (A : Type) : Type :=
  | Ok (a : A)
  | Err (e : PyError).
Arguments Ok {A} a.
Arguments Err {A} e.

Definition rbind {A B : Type} (m : result A) (k : A -> result B) : result B :=
  match m with
  | Ok a => k a
  | Err e => Err e
  end.

Notation "x <- m ;; k" := (rbind m (fun x => k))
  (at level 100, m at next level, right associativity).

Definition is_err {A : Type} (r : result A) : bool :=
  match r with Ok _ => false | Err _ => true end.

Definition rmap {A B : Type} (f : A -> B) (r : result A) : result B :=
  match r with Ok a => Ok (f a) | Err e => Err e end.

(** ** Scalars

    The element type of a tensor, with the two operations the reduction
    uses.  No law is assumed of them, so that the development also covers
    floating-point elements, where addition is not associative: sums are
    always taken in one fixed order. *)

Class Scalar (T : Type) : Type := {
  szero : T;
  sadd : T -> T -> T;
  smul : T -> T -> T
}.

#[export] Instance Z_scalar : Scalar Z := {|
  szero := 0%Z;
  sadd := Z.add;
  smul := Z.mul
|}.

(** ** Tabulation of lists *)

Definition tabulate {A : Type} (n : nat) (f : nat -> A) : list A :=
  map f (seq 0 n).

(** ** Dense tensors of rank 1, 3 and 4 *)

Section Tensors.
Context {T : Type} `{Scalar T}.

(** A rank-1 tensor (the bias) is a list; its shape is its length. *)
Definition get1 (b : list T) (i : nat) : T := nth i b szero.

Record Tensor3 : Type := mkT3 {
  dim3 : nat * nat * nat;
  elems3 : list (list (list T))
}.

Record Tensor4 : Type := mkT4 {
  dim4 : nat * nat * nat * nat;
  elems4 : list (list (list (list T)))
}.

Definition get3 (x : Tensor3) (i j k : nat) : T :=
  nth k (nth j (nth i (elems3 x) []) []) szero.

Definition get4 (x : Tensor4) (i j k l : nat) : T :=
  nth l (nth k (nth j (nth i (elems4 x) []) []) []) szero.

Definition tab3 (d : nat * nat * nat) (f : nat -> nat -> nat -> T) : Tensor3 :=
  let '(a, b, c) := d in
  mkT3 d (tabulate a (fun i => tabulate b (fun j => tabulate c (f i j)))).

Definition tab4 (d : nat * nat * nat * nat)
    (f : nat -> nat -> nat -> nat -> T) : Tensor4 :=
  let '(a, b, c, e) := d in
  mkT4 d (tabulate a (fun i => tabulate b (fun j =>
            tabulate c (fun k => tabulate e (f i j k))))).

(** A tensor is well formed when its elements fill exactly its shape. *)
Definition wf3 (x : Tensor3) : Prop := x = tab3 (dim3 x) (get3 x).
Definition wf4 (x : Tensor4) : Prop := x = tab4 (dim4 x) (get4 x).

(** Elementwise map, the shape of an elementwise activation. *)
Definition tmap3 (f : T -> T) (x : Tensor3) : Tensor3 :=
  tab3 (dim3 x) (fun i j k => f (get3 x i j k)).

End Tensors.

Arguments Tensor3 T : clear implicits.
Arguments Tensor4 T : clear implicits.
Arguments tab3 : simpl never.
Arguments tab4 : simpl never.
Arguments get3 : simpl never.
Arguments get4 : simpl never.

(** ** The framework's tensor primitives *)

Inductive DataFormat : Type := channels_last | channels_first.
Inductive Padding : Type := valid | same | causal.
Inductive ConvFormat : Type := NHWC | NCHW.

Definition DataFormat_eqb (a b : DataFormat) : bool :=
  match a, b with
  | channels_last, channels_last | channels_first, channels_first => true
  | _, _ => false
  end.

Definition Padding_eqb (a b : Padding) : bool :=
  match a, b with
  | valid, valid | same, same | causal, causal => true
  | _, _ => false
  end.

(** [conv_utils.convert_data_format(data_format, ndim=4)] *)
Definition convert_data_format (f : DataFormat) : ConvFormat :=
  match f with
  | channels_last => NHWC
  | channels_first => NCHW
  end.

Section Primitives.
Context {T : Type} `{Scalar T}.

Definition in_range (lo len i : nat) : bool := (lo <=? i) && (i <? lo + len).

(** [array_ops.pad(x, paddings)]: [paddings] holds one [before, after]
    pair per axis; the new cells are zero, a negative amount raises. *)
Definition pad (x : Tensor3 T) (paddings : list (Z * Z)) : result (Tensor3 T) :=
  match paddings with
  | [(b0, a0); (b1, a1); (b2, a2)] =>
      if existsb (fun z => (z <? 0)%Z) [b0; a0; b1; a1; b2; a2]
      then Err ValueError
      else
        let '(d0, d1, d2) := dim3 x in
        let '(p0, p1, p2) := (Z.to_nat b0, Z.to_nat b1, Z.to_nat b2) in
        Ok (tab3 (p0 + d0 + Z.to_nat a0, p1 + d1 + Z.to_nat a1,
                  p2 + d2 + Z.to_nat a2)
              (fun i j k =>
                 if in_range p0 d0 i && in_range p1 d1 j && in_range p2 d2 k
                 then get3 x (i - p0) (j - p1) (k - p2)
                 else szero))
  | _ => Err ValueError
  end.

(** [array_ops.expand_dims(x, axis)] on a rank-3 tensor. *)
Definition expand_dims (x : Tensor3 T) (axis : nat) : result (Tensor4 T) :=
  let '(d0, d1, d2) := dim3 x in
  match axis with
  | 0 => Ok (tab4 (1, d0, d1, d2) (fun _ i j k => get3 x i j k))
  | 1 => Ok (tab4 (d0, 1, d1, d2) (fun i _ j k => get3 x i j k))
  | 2 => Ok (tab4 (d0, d1, 1, d2) (fun i j _ k => get3 x i j k))
  | 3 => Ok (tab4 (d0, d1, d2, 1) (fun i j k _ => get3 x i j k))
  | _ => Err ValueError
  end.

(** [array_ops.squeeze(y, [axis])]: the squeezed axis must have size 1. *)
Definition squeeze (y : Tensor4 T) (axes : list nat) : result (Tensor3 T) :=
  let '(d0, d1, d2, d3) := dim4 y in
  match axes with
  | [0] => if d0 =? 1 then Ok (tab3 (d1, d2, d3) (fun i j k => get4 y 0 i j k))
           else Err ValueError
  | [1] => if d1 =? 1 then Ok (tab3 (d0, d2, d3) (fun i j k => get4 y i 0 j k))
           else Err ValueError
  | [2] => if d2 =? 1 then Ok (tab3 (d0, d1, d3) (fun i j k => get4 y i j 0 k))
           else Err ValueError
  | [3] => if d3 =? 1 then Ok (tab3 (d0, d1, d2) (fun i j k => get4 y i j k 0))
           else Err ValueError
  | _ => Err ValueError
  end.

(** [tf.tile(x, multiples)] on a rank-3 tensor: axis [a] grows to
    [dim a * multiples a] and the values repeat along it. *)
Definition tile3 (x : Tensor3 T) (multiples : nat * nat * nat) : Tensor3 T :=
  let '(d0, d1, d2) := dim3 x in
  let '(m0, m1, m2) := multiples in
  tab3 (d0 * m0, d1 * m1, d2 * m2)
    (fun i j k => get3 x (i mod d0) (j mod d1) (k mod d2)).

(** [tf.tile(b, (n,))] on the bias attribute, which is [None] when the
    layer has no bias: converting [None] to a tensor raises. *)
Definition tile1 (b : option (list T)) (n : nat) : result (list T) :=
  match b with
  | None => Err ValueError
  | Some v => Ok (tabulate (length v * n) (fun i => get1 v (i mod length v)))
  end.

(** *** [nn.depthwise_conv2d] *)

(** Output size along one spatial axis, and the zeros put in front of it.
    A ['VALID'] window longer than the input is rejected (negative
    dimension size); ['CAUSAL'] is no padding mode of the primitive.
    The errors are those of shape inference, which runs when the layer is
    called on symbolic tensors, as a Keras model does while it is
    assembled; eager execution signals them otherwise (it accepts a window
    longer than the input and reports a channel mismatch as
    [InvalidArgumentError]). Only results that are tensors should be read
    as holding in both modes. *)
Definition conv_out_len (p : Padding) (len flt stride : nat) : result nat :=
  match p with
  | valid => if len <? flt then Err ValueError
             else Ok ((len - flt) / stride + 1)
  | same => Ok ((len + stride - 1) / stride)
  | causal => Err ValueError
  end.

Definition pad_before (p : Padding) (len flt stride out : nat) : nat :=
  match p with
  | same => ((out - 1) * stride + flt - len) / 2
  | _ => 0
  end.

Definition nhwc_dims (fmt : ConvFormat) (d : nat * nat * nat * nat)
    : nat * nat * nat * nat :=
  match fmt with
  | NHWC => d
  | NCHW => let '(n, c, h, w) := d in (n, h, w, c)
  end.

Definition read_nhwc (fmt : ConvFormat) (x : Tensor4 T) (b i j c : nat) : T :=
  match fmt with
  | NHWC => get4 x b i j c
  | NCHW => get4 x b c i j
  end.

Definition build_nhwc (fmt : ConvFormat) (d : nat * nat * nat * nat)
    (f : nat -> nat -> nat -> nat -> T) : Tensor4 T :=
  let '(n, h, w, c) := d in
  match fmt with
  | NHWC => tab4 (n, h, w, c) f
  | NCHW => tab4 (n, c, h, w) (fun b ch i j => f b i j ch)
  end.

(** The strides argument has one entry per axis; batch and depth strides
    must be 1 and the two spatial strides equal and positive. *)
Definition window_strides (fmt : ConvFormat) (strides : list nat)
    : option (nat * nat) :=
  match fmt, strides with
  | NHWC, [1; sh; sw; 1] => Some (sh, sw)
  | NCHW, [1; 1; sh; sw] => Some (sh, sw)
  | _, _ => None
  end.

(** Sum of [term di dj] over the window, rows first, accumulated from
    zero in that order. *)
Definition window_sum (fh fw : nat) (term : nat -> nat -> T) : T :=
  fold_left (fun acc p => sadd acc (term (fst p) (snd p)))
    (list_prod (seq 0 fh) (seq 0 fw)) szero.

(** Reads the zero-padded input along one axis at padded position [p]. *)
Definition in_window (before len p : nat) : bool := in_range before len p.

Definition depthwise_conv2d (input filter : Tensor4 T) (strides : list nat)
    (padding : Padding) (fmt : ConvFormat) : result (Tensor4 T) :=
  let '(n, h, w, c) := nhwc_dims fmt (dim4 input) in
  let '(fh, fw, fc, m) := dim4 filter in
  match window_strides fmt strides with
  | None => Err ValueError
  | Some (sh, sw) =>
      if negb (sh =? sw) || (sh =? 0) then Err ValueError
      else if negb (c =? fc) then Err ValueError
      else
        oh <- conv_out_len padding h fh sh ;;
        ow <- conv_out_len padding w fw sw ;;
        let pt := pad_before padding h fh sh oh in
        let pl := pad_before padding w fw sw ow in
        let rd b y x ch :=
          if in_window pt h y && in_window pl w x
          then read_nhwc fmt input b (y - pt) (x - pl) ch
          else szero in
        Ok (build_nhwc fmt (n, oh, ow, c * m)
              (fun b i j o =>
                 window_sum fh fw (fun di dj =>
                   smul (rd b (i * sh + di) (j * sw + dj) (o / m))
                        (get4 filter di dj (o / m) (o mod m)))))
  end.

(** [backend.bias_add(x, bias, data_format)] on a rank-3 tensor: the bias
    has one entry per channel and is broadcast over the other axes. *)
Definition bias_add (x : Tensor3 T) (bias : option (list T)) (fmt : DataFormat)
    : result (Tensor3 T) :=
  match bias with
  | None => Err ValueError
  | Some b =>
      let '(d0, d1, d2) := dim3 x in
      match fmt with
      | channels_last =>
          if length b =? d2
          then Ok (tab3 (d0, d1, d2) (fun i j k => sadd (get3 x i j k) (get1 b k)))
          else Err ValueError
      | channels_first =>
          if length b =? d1
          then Ok (tab3 (d0, d1, d2) (fun i j k => sadd (get3 x i j k) (get1 b j)))
          else Err ValueError
      end
  end.

End Primitives.

(** ** Python values used by the shape and configuration code *)

Inductive pyval : Type :=
  | PyNone
  | PyInt (z : Z)
  | PyBool (b : bool)
  | PyStr (s : string)
  | PyTuple (l : list Z).

(** [seq[i]] with Python's negative indices. *)
Definition py_getitem {A : Type} (l : list A) (i : Z) : result A :=
  let n := Z.of_nat (length l) in
  let j := if (i <? 0)%Z then (i + n)%Z else i in
  if (j <? 0)%Z || (n <=? j)%Z then Err IndexError
  else match nth_error l (Z.to_nat j) with
       | Some a => Ok a
       | None => Err IndexError
       end.

(** [t * n] on tuples. *)
Definition tuple_mul {A : Type} (t : list A) (n : nat) : list A :=
  concat (replicate n t).

(** Python's [+], [-], [*] and [//] on the values above; an operand pair
    the operator does not support raises [TypeError]. *)
Definition py_add (a b : pyval) : result pyval :=
  match a, b with
  | PyInt x, PyInt y => Ok (PyInt (x + y))
  | PyTuple x, PyTuple y => Ok (PyTuple (x ++ y))
  | _, _ => Err TypeError
  end.

Definition py_sub (a b : pyval) : result pyval :=
  match a, b with
  | PyInt x, PyInt y => Ok (PyInt (x - y))
  | _, _ => Err TypeError
  end.

Definition py_mul (a b : pyval) : result pyval :=
  match a, b with
  | PyInt x, PyInt y => Ok (PyInt (x * y))
  | PyTuple x, PyInt n | PyInt n, PyTuple x => Ok (PyTuple (tuple_mul x (Z.to_nat n)))
  | _, _ => Err TypeError
  end.

Definition py_floordiv (a b : pyval) : result pyval :=
  match a, b with
  | PyInt x, PyInt y =>
      if (y =? 0)%Z then Err ZeroDivisionError else Ok (PyInt (x / y))
  | _, _ => Err TypeError
  end.

(** [conv_utils.normalize_tuple(value, n, name)] on an integer. *)
Definition normalize_tuple (value n : nat) : list nat := replicate n value.

(** [conv_utils.conv_output_length(input_length, filter_size, padding,
    stride, dilation=1)]:
<<
    if input_length is None: return None
    dilated_filter_size = filter_size + (filter_size - 1) * (dilation - 1)
    if padding in ['same', 'causal']: output_length = input_length
    elif padding == 'valid': output_length = input_length - dilated_filter_size + 1
    return (output_length + stride - 1) // stride
>> *)
Definition conv_output_length (input_length filter_size : pyval)
    (padding : Padding) (stride : pyval) : result pyval :=
  let dilation := PyInt 1 in
  match input_length with
  | PyNone => Ok PyNone
  | _ =>
      fm1 <- py_sub filter_size (PyInt 1) ;;
      dm1 <- py_sub dilation (PyInt 1) ;;
      ext <- py_mul fm1 dm1 ;;
      dilated_filter_size <- py_add filter_size ext ;;
      output_length <-
        match padding with
        | same | causal => Ok input_length
        | valid => d <- py_sub input_length dilated_filter_size ;;
                   py_add d (PyInt 1)
        end ;;
      s <- py_add output_length stride ;;
      s1 <- py_sub s (PyInt 1) ;;
      py_floordiv s1 stride
  end.

(** ** The layer *)

Section Layer.
Context {T : Type} `{Scalar T}.

(** Pluggable collaborators.  An initializer maps the requested shape and
    an index to the initial value there; regularizers and constraints
    only matter through their serialized names. *)
Record Initializer : Type := {
  init_name : string;
  init_value : list nat -> list nat -> T
}.

Record Activation : Type := {
  act_name : string;
  act_fn : Tensor3 T -> Tensor3 T
}.

(** The arguments of [DepthwiseConv1D.__init__]: the constructed,
    not yet built, operator.  Sizes are natural numbers; the padding mode
    and the data format are the values [Conv1D.__init__] accepts. No
    dilation rate is passed on, so it keeps its default 1. *)
Record Config : Type := {
  kernel_size_arg : nat;
  strides_arg : nat;
  padding : Padding;
  common_kernel : bool;
  depth_multiplier : nat;
  data_format_arg : option DataFormat;
  activation : option Activation;
  use_bias : bool;
  depthwise_initializer : Initializer;
  bias_initializer : Initializer;
  depthwise_regularizer : option string;
  bias_regularizer : option string;
  activity_regularizer : option string;
  depthwise_constraint : option string;
  bias_constraint : option string;
  layer_name : string
}.

(** Attributes set by [Conv1D.__init__] from those arguments. *)
Definition kernel_size (self : Config) : list nat :=
  normalize_tuple (kernel_size_arg self) 1.
Definition strides (self : Config) : list nat :=
  normalize_tuple (strides_arg self) 1.
Definition dilation_rate (self : Config) : list nat := normalize_tuple 1 1.
Definition data_format (self : Config) : DataFormat :=
  match data_format_arg self with
  | Some f => f
  | None => channels_last
  end.

Record InputSpec : Type := {
  ndim : nat;
  axes : list (Z * nat)
}.

(** The operator after [build]. *)
Record DepthwiseConv1D : Type := {
  config : Config;
  channels : nat;
  depthwise_kernel : Tensor3 T;
  bias : option (list T);
  input_spec : InputSpec;
  built : bool
}.

(** [Layer.add_weight(shape=..., initializer=...)] for the two ranks. *)
Definition add_weight3 (shape : nat * nat * nat) (init : Initializer) : Tensor3 T :=
  let '(a, b, c) := shape in
  tab3 shape (fun i j k => init_value init [a; b; c] [i; j; k]).

Definition add_weight1 (n : nat) (init : Initializer) : list T :=
  tabulate n (fun i => init_value init [n] [i]).

Definition _get_channel_axis (self : Config) : Z :=
  if DataFormat_eqb (data_format self) channels_first then 1%Z else (-1)%Z.

Definition build (self : Config) (input_shape : list (option nat))
    : result DepthwiseConv1D :=
  if negb (length input_shape =? 3) then Err ValueError
  else
    let channel_axis := _get_channel_axis self in
    d <- py_getitem input_shape channel_axis ;;
    match d with
    | None => Err ValueError
    | Some input_dim =>
        let kernel_dim := if common_kernel self then 1 else input_dim in
        k0 <- py_getitem (kernel_size self) 0 ;;
        let depthwise_kernel_shape := (k0, kernel_dim, depth_multiplier self) in
        Ok {| config := self;
              channels := input_dim;
              depthwise_kernel :=
                add_weight3 depthwise_kernel_shape (depthwise_initializer self);
              bias :=
                if use_bias self
                then Some (add_weight1 (kernel_dim * depth_multiplier self)
                             (bias_initializer self))
                else None;
              input_spec := {| ndim := 3; axes := [(channel_axis, input_dim)] |};
              built := true |}
    end.

(** [Conv1D._compute_causal_padding()] *)
Definition _compute_causal_padding (self : Config) : result (list (Z * Z)) :=
  d0 <- py_getitem (dilation_rate self) 0 ;;
  k0 <- py_getitem (kernel_size self) 0 ;;
  let left_pad := (Z.of_nat d0 * (Z.of_nat k0 - 1))%Z in
  Ok (match data_format self with
      | channels_last => [(0, 0); (left_pad, 0); (0, 0)]
      | channels_first => [(0, 0); (0, 0); (left_pad, 0)]
      end)%Z.

(** [call].  The activation attribute is applied to the whole output
    tensor; when the constructor got no activation, Keras stores the linear
    activation, which returns its argument, so [None] leaves the output
    as it is. *)
Definition call (self : DepthwiseConv1D) (inputs : Tensor3 T)
    : result (Tensor3 T) :=
  let cfg := config self in
  inputs <-
    (if Padding_eqb (padding cfg) causal
     then p <- _compute_causal_padding cfg ;; pad inputs p
     else Ok inputs) ;;
  let strides_dim :=
    if DataFormat_eqb (data_format cfg) channels_last
    then ([1] ++ tuple_mul (strides cfg) 2 ++ [1], 1)
    else ([1; 1] ++ tuple_mul (strides cfg) 2, 2) in
  let strides := fst strides_dim in
  let spatial_start_dim := snd strides_dim in
  inputs <- expand_dims inputs spatial_start_dim ;;
  kernels <-
    (if common_kernel cfg
     then
       let dw_kernel := tile3 (depthwise_kernel self) (1, channels self, 1) in
       bias_kernel <- tile1 (bias self) (channels self) ;;
       Ok (dw_kernel, Some bias_kernel)
     else Ok (depthwise_kernel self, bias self)) ;;
  let bias_kernel := snd kernels in
  dw_kernel <- expand_dims (fst kernels) 0 ;;
  let op_padding :=
    if Padding_eqb (padding cfg) causal then valid else padding cfg in
  outputs <- depthwise_conv2d inputs dw_kernel strides op_padding
               (convert_data_format (data_format cfg)) ;;
  outputs <- squeeze outputs [spatial_start_dim] ;;
  outputs <-
    (if use_bias cfg
     then bias_add outputs bias_kernel (data_format cfg)
     else Ok outputs) ;;
  match activation cfg with
  | Some a => Ok (act_fn a outputs)
  | None => Ok outputs
  end.

(** [InputSpec] check made by [Layer.__call__] before [call]: the rank
    and every pinned axis must match. *)
Definition shape_list (x : Tensor3 T) : list nat :=
  let '(a, b, c) := dim3 x in [a; b; c].

Definition assert_input_compatibility (spec : InputSpec) (shape : list nat)
    : result unit :=
  if negb (length shape =? ndim spec) then Err ValueError
  else
    fold_left
      (fun acc ax =>
         _ <- acc ;;
         d <- py_getitem shape (fst ax) ;;
         if d =? snd ax then Ok tt else Err ValueError)
      (axes spec) (Ok tt).

Definition Layer_call (self : DepthwiseConv1D) (inputs : Tensor3 T)
    : result (Tensor3 T) :=
  _ <- assert_input_compatibility (input_spec self) (shape_list inputs) ;;
  call self inputs.

(** [compute_output_shape], on the tuple the decorator hands it. *)
Definition compute_output_shape (self : Config) (input_shape : list pyval)
    : result (list pyval) :=
  lf <-
    match data_format self with
    | channels_first =>
        length <- py_getitem input_shape 2 ;;
        c <- py_getitem input_shape 1 ;;
        out_filters <- py_mul c (PyInt (Z.of_nat (depth_multiplier self))) ;;
        Ok (length, out_filters)
    | channels_last =>
        length <- py_getitem input_shape 1 ;;
        c <- py_getitem input_shape 2 ;;
        out_filters <- py_mul c (PyInt (Z.of_nat (depth_multiplier self))) ;;
        Ok (length, out_filters)
    end ;;
  let length := fst lf in
  let out_filters := snd lf in
  length_new <- conv_output_length length
                  (PyTuple (map Z.of_nat (kernel_size self)))
                  (padding self)
                  (PyTuple (map Z.of_nat (strides self))) ;;
  n <- py_getitem input_shape 0 ;;
  match data_format self with
  | channels_first => Ok [n; out_filters; length_new]
  | channels_last => Ok [n; length_new; out_filters]
  end.

End Layer.

Arguments Initializer T : clear implicits.
Arguments Activation T : clear implicits.
Arguments Config T : clear implicits.
Arguments DepthwiseConv1D T : clear implicits.

(** ** Configuration serialization *)

Section GetConfig.
Context {T : Type}.
Local Open Scope string_scope.

(** The names bound at module level in [depthwiseconv1d.py]: its imports
    and the class it defines. *)
Definition module_globals : list string :=
  [ "tf"; "tensor_shape"; "models"; "layers"; "initializers";
    "regularizers"; "constraints"; "Conv1D"; "InputSpec"; "conv_utils";
    "tf_utils"; "backend"; "array_ops"; "nn"; "nn_ops"; "keras_export";
    "DepthwiseConv1D" ].

(** Evaluating a bare name inside a method: a global of the module, or
    [NameError] (none of the names at stake is a builtin). *)
Definition load_global (name : string) : result string :=
  if existsb (String.eqb name) module_globals then Ok name else Err NameError.

Definition serialize_opt (o : option string) : pyval :=
  match o with
  | Some s => PyStr s
  | None => PyNone
  end.

Definition padding_name (p : Padding) : string :=
  match p with
  | valid => "valid"
  | same => "same"
  | causal => "causal"
  end.

Definition data_format_name (f : DataFormat) : string :=
  match f with
  | channels_last => "channels_last"
  | channels_first => "channels_first"
  end.

(** [Layer.get_config] and [Conv.get_config] of the framework; the
    standard kernel initializer, regularizer and constraint are the
    defaults [Conv1D.__init__] gets, since the layer passes none. *)
Definition Layer_get_config (self : Config T) : gmap string pyval :=
  <["name" := PyStr (layer_name self)]>
  (<["trainable" := PyBool true]>
  (<["dtype" := PyStr "float32"]> ∅)).

Definition Conv_get_config (self : Config T) : gmap string pyval :=
  <["filters" := PyNone]>
  (<["kernel_size" := PyTuple (map Z.of_nat (kernel_size self))]>
  (<["strides" := PyTuple (map Z.of_nat (strides self))]>
  (<["padding" := PyStr (padding_name (padding self))]>
  (<["data_format" := PyStr (data_format_name (data_format self))]>
  (<["dilation_rate" := PyTuple (map Z.of_nat (dilation_rate self))]>
  (<["activation" :=
       PyStr (match activation self with
              | Some a => act_name a
              | None => "linear"
              end)]>
  (<["use_bias" := PyBool (use_bias self)]>
  (<["kernel_initializer" := PyStr "glorot_uniform"]>
  (<["bias_initializer" := PyStr (init_name (bias_initializer self))]>
  (<["kernel_regularizer" := PyNone]>
  (<["bias_regularizer" := serialize_opt (bias_regularizer self)]>
  (<["activity_regularizer" := serialize_opt (activity_regularizer self)]>
  (<["kernel_constraint" := PyNone]>
  (<["bias_constraint" := serialize_opt (bias_constraint self)]>
  (Layer_get_config self))))))))))))))).

(** [super(cls, self).get_config()] for [self] a [DepthwiseConv1D]: the
    method of the first class after [cls] in the method resolution order
    ([DepthwiseConv1D], [Conv1D], [Conv], [Layer]) that defines one
    ([Conv1D] defines none), or [TypeError] when [self] is no instance of
    [cls]. *)
Definition super_get_config (cls : string) (self : Config T)
    : result (gmap string pyval) :=
  if String.eqb cls "DepthwiseConv1D" || String.eqb cls "Conv1D"
  then Ok (Conv_get_config self)
  else if String.eqb cls "Conv"
  then Ok (Layer_get_config self)
  else Err TypeError.

(** [config.pop(key)] *)
Definition dict_pop (key : string) (d : gmap string pyval)
    : result (gmap string pyval) :=
  match d !! key with
  | Some _ => Ok (delete key d)
  | None => Err KeyError
  end.

(** Lines 219-227 of [get_config], after the base configuration is
    fetched. *)
Definition get_config_rest (self : Config T) (config : gmap string pyval)
    : result (gmap string pyval) :=
  config <- dict_pop "filters" config ;;
  config <- dict_pop "kernel_initializer" config ;;
  config <- dict_pop "kernel_regularizer" config ;;
  config <- dict_pop "kernel_constraint" config ;;
  let config :=
    <["depth_multiplier" := PyInt (Z.of_nat (depth_multiplier self))]> config in
  let config :=
    <["depthwise_initializer" :=
        PyStr (init_name (depthwise_initializer self))]> config in
  let config :=
    <["depthwise_regularizer" :=
        serialize_opt (depthwise_regularizer self)]> config in
  let config :=
    <["depthwise_constraint" :=
        serialize_opt (depthwise_constraint self)]> config in
  Ok config.

Definition get_config (self : Config T) : result (gmap string pyval) :=
  cls <- load_global "DepthwiseConv2D" ;;
  config <- super_get_config cls self ;;
  get_config_rest self config.

End GetConfig.

(** ** The forward computation as the specification words it

    The second, independent description of the forward pass: a
    one-dimensional sliding-window sum over the zero-padded input, per
    batch element, output position and output channel. *)

Section Reference.
Context {T : Type} `{Scalar T}.

(** Sum of [f 0 .. f (n-1)], accumulated from zero in that order. *)
Definition sum_n (n : nat) (f : nat -> T) : T :=
  fold_left (fun acc k => sadd acc (f k)) (seq 0 n) szero.

(** Batch size, length and channel count of an input in either layout,
    and the cell at batch [b], position [p], channel [c]. *)
Definition blc (fmt : DataFormat) (d : nat * nat * nat) : nat * nat * nat :=
  match fmt with
  | channels_last => d
  | channels_first => let '(b, c, l) := d in (b, l, c)
  end.

Definition cell_at (fmt : DataFormat) (x : Tensor3 T) (b p c : nat) : T :=
  match fmt with
  | channels_last => get3 x b p c
  | channels_first => get3 x b c p
  end.

Definition tab_blc (fmt : DataFormat) (d : nat * nat * nat)
    (f : nat -> nat -> nat -> T) : Tensor3 T :=
  let '(b, l, c) := d in
  match fmt with
  | channels_last => tab3 (b, l, c) f
  | channels_first => tab3 (b, c, l) (fun i ch p => f i p ch)
  end.

(** Output length and number of zeros in front of the input, by mode. *)
Definition new_length (p : Padding) (K S L : nat) : nat :=
  match p with
  | valid => (L - K) / S + 1
  | same => (L + S - 1) / S
  | causal => (L + (K - 1) - K) / S + 1
  end.

Definition left_pad (p : Padding) (K S L : nat) : nat :=
  match p with
  | valid => 0
  | same => ((new_length same K S L - 1) * S + K - L) / 2
  | causal => K - 1
  end.

(** The window must fit in the (padded) input. *)
Definition window_fits (p : Padding) (K L : nat) : Prop :=
  match p with
  | valid => K <= L
  | same => True
  | causal => K <= L + (K - 1)
  end.

Definition input_padded (fmt : DataFormat) (p : Padding) (K S : nat)
    (x : Tensor3 T) (b q c : nat) : T :=
  let L := snd (fst (blc fmt (dim3 x))) in
  if in_range (left_pad p K S L) L q
  then cell_at fmt x b (q - left_pad p K S L) c
  else szero.

(** The value before activation at batch [b], position [t], output
    channel [c * M + m]. *)
Definition conv_value (self : DepthwiseConv1D T) (x : Tensor3 T)
    (b t c m : nat) : T :=
  let cfg := config self in
  let K := kernel_size_arg cfg in
  let S := strides_arg cfg in
  let M := depth_multiplier cfg in
  let s := sum_n K (fun k =>
             smul (input_padded (data_format cfg) (padding cfg) K S x b (t * S + k) c)
                  (get3 (depthwise_kernel self) k
                     (if common_kernel cfg then 0 else c) m)) in
  if use_bias cfg
  then sadd s (match bias self with
               | Some bv => get1 bv (if common_kernel cfg then m else c * M + m)
               | None => szero
               end)
  else s.

Definition forward_linear (self : DepthwiseConv1D T) (x : Tensor3 T) : Tensor3 T :=
  let cfg := config self in
  let M := depth_multiplier cfg in
  let '(B, L, C) := blc (data_format cfg) (dim3 x) in
  tab_blc (data_format cfg)
    (B, new_length (padding cfg) (kernel_size_arg cfg) (strides_arg cfg) L, C * M)
    (fun b t o => conv_value self x b t (o / M) (o mod M)).

Definition forward_spec (self : DepthwiseConv1D T) (x : Tensor3 T) : Tensor3 T :=
  match activation (config self) with
  | Some a => act_fn a (forward_linear self x)
  | None => forward_linear self x
  end.

(** *** What "built" and "conforming" mean *)

(** The operator has been built for [channels self] input channels and
    its weights, whatever training made of their values, still have the
    shapes [build] gave them. Kernel length and stride are positive. *)
Record Built (self : DepthwiseConv1D T) : Prop := {
  built_flag : built self = true;
  built_K : 0 < kernel_size_arg (config self);
  built_S : 0 < strides_arg (config self);
  built_kernel :
    dim3 (depthwise_kernel self) =
      (kernel_size_arg (config self),
       (if common_kernel (config self) then 1 else channels self),
       depth_multiplier (config self));
  built_bias :
    if use_bias (config self)
    then exists bv, bias self = Some bv /\
           length bv = (if common_kernel (config self) then 1 else channels self)
                       * depth_multiplier (config self)
    else bias self = None;
  built_spec :
    input_spec self =
      {| ndim := 3; axes := [(_get_channel_axis (config self), channels self)] |}
}.

(** The input has the channel count recorded at build time and is long
    enough for the window. *)
Definition Conforming (self : DepthwiseConv1D T) (x : Tensor3 T) : Prop :=
  let '(B, L, C) := blc (data_format (config self)) (dim3 x) in
  C = channels self /\
  window_fits (padding (config self)) (kernel_size_arg (config self)) L.

(** An activation that acts on each element by [f]; no activation is
    the identity. *)
Definition Elementwise (a : option (Activation T)) (f : T -> T) : Prop :=
  match a with
  | Some act => forall x, act_fn act x = tmap3 f x
  | None => forall v, f v = v
  end.

End Reference.

(** *** Vocabulary of the properties *)

Section Vocabulary.
Context {T : Type} `{Scalar T}.

(** The channel dimension of a shape descriptor: axis 1 for
    [channels_first], the last axis for [channels_last]; [None] when the
    axis is missing or unknown. *)
Definition channel_dim (fmt : DataFormat) (shape : list (option nat)) : option nat :=
  match fmt with
  | channels_first => match shape !! 1 with Some d => d | None => None end
  | channels_last => match last shape with Some d => d | None => None end
  end.

Definition bias_entry (self : DepthwiseConv1D T) (o : nat) : T :=
  match bias self with
  | Some bv => get1 bv o
  | None => szero
  end.


(** Two forward results agree outside the output channels [[lo, hi)]:
    both calls raise the same error, or both return tensors of one shape
    whose cells are equal in every other channel. *)
Definition agree_outside (fmt : DataFormat) (lo hi : nat)
    (r1 r2 : result (Tensor3 T)) : Prop :=
  match r1, r2 with
  | Ok y1, Ok y2 =>
      blc fmt (dim3 y2) = blc fmt (dim3 y1) /\
      forall b t o,
        b < fst (fst (blc fmt (dim3 y1))) ->
        t < snd (fst (blc fmt (dim3 y1))) ->
        o < snd (blc fmt (dim3 y1)) ->
        ~ (lo <= o < hi) ->
        cell_at fmt y1 b t o = cell_at fmt y2 b t o
  | Err e1, Err e2 => e1 = e2
  | _, _ => False
  end.

Definition set_common_kernel (v : bool) (cfg : Config T) : Config T :=
  {| kernel_size_arg := kernel_size_arg cfg;
     strides_arg := strides_arg cfg;
     padding := padding cfg;
     common_kernel := v;
     depth_multiplier := depth_multiplier cfg;
     data_format_arg := data_format_arg cfg;
     activation := activation cfg;
     use_bias := use_bias cfg;
     depthwise_initializer := depthwise_initializer cfg;
     bias_initializer := bias_initializer cfg;
     depthwise_regularizer := depthwise_regularizer cfg;
     bias_regularizer := bias_regularizer cfg;
     activity_regularizer := activity_regularizer cfg;
     depthwise_constraint := depthwise_constraint cfg;
     bias_constraint := bias_constraint cfg;
     layer_name := layer_name cfg |}.

Definition set_padding (p : Padding) (cfg : Config T) : Config T :=
  {| kernel_size_arg := kernel_size_arg cfg;
     strides_arg := strides_arg cfg;
     padding := p;
     common_kernel := common_kernel cfg;
     depth_multiplier := depth_multiplier cfg;
     data_format_arg := data_format_arg cfg;
     activation := activation cfg;
     use_bias := use_bias cfg;
     depthwise_initializer := depthwise_initializer cfg;
     bias_initializer := bias_initializer cfg;
     depthwise_regularizer := depthwise_regularizer cfg;
     bias_regularizer := bias_regularizer cfg;
     activity_regularizer := activity_regularizer cfg;
     depthwise_constraint := depthwise_constraint cfg;
     bias_constraint := bias_constraint cfg;
     layer_name := layer_name cfg |}.

(** The same operator, weights included, under another padding mode. *)
Definition with_padding (p : Padding) (self : DepthwiseConv1D T)
    : DepthwiseConv1D T :=
  {| config := set_padding p (config self);
     channels := channels self;
     depthwise_kernel := depthwise_kernel self;
     bias := bias self;
     input_spec := input_spec self;
     built := built self |}.


(** The per-channel operator that stores [C_in] copies of a common
    operator's filter bank and bias, everything else being equal. *)
Definition replicated (self : DepthwiseConv1D T) : DepthwiseConv1D T :=
  {| config := set_common_kernel false (config self);
     channels := channels self;
     depthwise_kernel := tile3 (depthwise_kernel self) (1, channels self, 1);
     bias := match bias self with
             | Some bv =>
                 Some (tabulate (length bv * channels self)
                         (fun i => get1 bv (i mod length bv)))
             | None => None
             end;
     input_spec := input_spec self;
     built := built self |}.

End Vocabulary.

(** ** Concrete operators and inputs over the integers *)

Module Samples.

Definition ramp : Initializer Z := {|
  init_name := "ramp";
  init_value := fun _ idx =>
    match idx with
    | [k; c; m] => Z.of_nat (1 + k + 10 * c + 100 * m)
    | [i] => Z.of_nat (1000 * (i + 1))
    | _ => 0%Z
    end
|}.

Definition layer (K S : nat) (p : Padding) (ck : bool) (M : nat)
    (fmt : option DataFormat) (act : option (Activation Z)) (ub : bool)
    : Config Z := {|
  kernel_size_arg := K;
  strides_arg := S;
  padding := p;
  common_kernel := ck;
  depth_multiplier := M;
  data_format_arg := fmt;
  activation := act;
  use_bias := ub;
  depthwise_initializer := ramp;
  bias_initializer := ramp;
  depthwise_regularizer := None;
  bias_regularizer := None;
  activity_regularizer := None;
  depthwise_constraint := None;
  bias_constraint := None;
  layer_name := "depthwise_conv1d"
|}.

(** An input of shape [(B, L, C)] whose cell at [b, t, c] is
    [1 + t + 7 c + 50 b]. *)
Definition signal (B L C : nat) : Tensor3 Z :=
  tab3 (B, L, C) (fun b t c => Z.of_nat (1 + t + 7 * c + 50 * b)).


Definition negate : Activation Z := {|
  act_name := "negate";
  act_fn := tmap3 Z.opp
|}.

End Samples.

(** ** Further vocabulary: layouts, activations, stacks *)

Section Extensions.
Context {T : Type} `{Scalar T}.

Definition set_data_format (f : DataFormat) (cfg : Config T) : Config T :=
  {| kernel_size_arg := kernel_size_arg cfg;
     strides_arg := strides_arg cfg;
     padding := padding cfg;
     common_kernel := common_kernel cfg;
     depth_multiplier := depth_multiplier cfg;
     data_format_arg := Some f;
     activation := activation cfg;
     use_bias := use_bias cfg;
     depthwise_initializer := depthwise_initializer cfg;
     bias_initializer := bias_initializer cfg;
     depthwise_regularizer := depthwise_regularizer cfg;
     bias_regularizer := bias_regularizer cfg;
     activity_regularizer := activity_regularizer cfg;
     depthwise_constraint := depthwise_constraint cfg;
     bias_constraint := bias_constraint cfg;
     layer_name := layer_name cfg |}.

Definition set_activation (a : option (Activation T)) (cfg : Config T)
    : Config T :=
  {| kernel_size_arg := kernel_size_arg cfg;
     strides_arg := strides_arg cfg;
     padding := padding cfg;
     common_kernel := common_kernel cfg;
     depth_multiplier := depth_multiplier cfg;
     data_format_arg := data_format_arg cfg;
     activation := a;
     use_bias := use_bias cfg;
     depthwise_initializer := depthwise_initializer cfg;
     bias_initializer := bias_initializer cfg;
     depthwise_regularizer := depthwise_regularizer cfg;
     bias_regularizer := bias_regularizer cfg;
     activity_regularizer := activity_regularizer cfg;
     depthwise_constraint := depthwise_constraint cfg;
     bias_constraint := bias_constraint cfg;
     layer_name := layer_name cfg |}.

(** The same operator, weights included, with no activation. *)
Definition without_activation (self : DepthwiseConv1D T) : DepthwiseConv1D T :=
  {| config := set_activation None (config self);
     channels := channels self;
     depthwise_kernel := depthwise_kernel self;
     bias := bias self;
     input_spec := input_spec self;
     built := built self |}.

(** The same operator, weights included, reading [channels_first] inputs;
    its input specification pins axis 1, as [build] would have it. *)
Definition as_channels_first (self : DepthwiseConv1D T) : DepthwiseConv1D T :=
  {| config := set_data_format channels_first (config self);
     channels := channels self;
     depthwise_kernel := depthwise_kernel self;
     bias := bias self;
     input_spec := {| ndim := 3; axes := [(1%Z, channels self)] |};
     built := built self |}.

(** The tensor with its last two axes exchanged. *)
Definition swap_axes (x : Tensor3 T) : Tensor3 T :=
  let '(a, b, c) := dim3 x in
  tab3 (a, c, b) (fun i j k => get3 x i k j).

(** [front] zeros before and [back] zeros behind the spatial axis, none
    anywhere else, as an argument of [pad]. *)
Definition side_padding (fmt : DataFormat) (front back : nat) : list (Z * Z) :=
  match fmt with
  | channels_last => [(0, 0); (Z.of_nat front, Z.of_nat back); (0, 0)]
  | channels_first => [(0, 0); (0, 0); (Z.of_nat front, Z.of_nat back)]
  end%Z.

(** A shape tuple in the order of a layout. *)
Definition arrange {A : Type} (fmt : DataFormat) (n l c : A) : list A :=
  match fmt with
  | channels_last => [n; l; c]
  | channels_first => [n; c; l]
  end.

(** *** The model of [example.py]

    Lines 34-41 stack four depthwise layers, each followed by
    [keras.layers.ReLU()]; the constructor arguments not given there keep
    their defaults. The initializers are parameters: [glorot_uniform] draws
    random values. *)
Definition example_layer (K S : nat) (p : Padding)
    (kernel_init bias_init : Initializer T) : Config T := {|
  kernel_size_arg := K;
  strides_arg := S;
  padding := p;
  common_kernel := false;
  depth_multiplier := 1;
  data_format_arg := None;
  activation := None;
  use_bias := true;
  depthwise_initializer := kernel_init;
  bias_initializer := bias_init;
  depthwise_regularizer := None;
  bias_regularizer := None;
  activity_regularizer := None;
  depthwise_constraint := None;
  bias_constraint := None;
  layer_name := "depthwise_conv1d"
|}.

Definition example_configs (kernel_init bias_init : Initializer T)
    : list (Config T) :=
  [ example_layer 10 1 same kernel_init bias_init;
    example_layer 10 1 same kernel_init bias_init;
    example_layer 3 2 valid kernel_init bias_init;
    example_layer 3 2 valid kernel_init bias_init ].

(** The forward pass of a [Sequential] stack of depthwise layers, each
    followed by a ReLU layer; [relu] is the scalar function the ReLU layer
    applies to every element. *)
Definition run_stack (relu : T -> T) (layers : list (DepthwiseConv1D T))
    (x : Tensor3 T) : result (Tensor3 T) :=
  fold_left
    (fun acc l => y <- acc ;; z <- Layer_call l y ;; Ok (tmap3 relu z))
    layers (Ok x).

End Extensions.

(** ** More concrete operators over the integers *)

Module Fresh.

(** The operator [build] returns for a configuration and a channel count. *)
Definition operator (cfg : Config Z) (C : nat) : DepthwiseConv1D Z :=
  {| config := cfg;
     channels := C;
     depthwise_kernel :=
       add_weight3 (kernel_size_arg cfg,
                    (if common_kernel cfg then 1 else C),
                    depth_multiplier cfg) (depthwise_initializer cfg);
     bias :=
       if use_bias cfg
       then Some (add_weight1 ((if common_kernel cfg then 1 else C)
                               * depth_multiplier cfg) (bias_initializer cfg))
       else None;
     input_spec := {| ndim := 3; axes := [(_get_channel_axis cfg, C)] |};
     built := true |}.

Definition relu (z : Z) : Z := Z.max z 0.

End Fresh.

(** ** Activations that are not elementwise *)

Module Mixing.

(** An activation that, like softmax, works along the last axis: every
    cell becomes the sum of the cells that share its first two indices. *)
Definition sum_last_axis : Activation Z := {|
  act_name := "sum_last_axis";
  act_fn := fun y =>
    let '(a, b, c) := dim3 y in
    tab3 (a, b, c)
      (fun i j _ => fold_left Z.add (map (get3 y i j) (seq 0 c)) 0%Z)
|}.

(** Two per-channel operators over three channels that differ only in the
    kernel slice and the bias entry of channel 1. *)
Definition per_channel : Config Z :=
  Samples.layer 2 1 valid false 1 None (Some sum_last_axis) true.

Definition original : DepthwiseConv1D Z := Fresh.operator per_channel 3.

Definition perturbed : DepthwiseConv1D Z :=
  {| config := per_channel;
     channels := 3;
     depthwise_kernel :=
       tab3 (2, 3, 1) (fun k c m =>
         if c =? 1 then 5%Z else get3 (depthwise_kernel original) k c m);
     bias := Some [1000; 7; 3000]%Z;
     input_spec := input_spec original;
     built := true |}.


End Mixing.

(** ** Further vocabulary: strides and bias *)

Section StrideAndBias.
Context {T : Type} `{Scalar T}.

Definition set_strides (v : nat) (cfg : Config T) : Config T :=
  {| kernel_size_arg := kernel_size_arg cfg;
     strides_arg := v;
     padding := padding cfg;
     common_kernel := common_kernel cfg;
     depth_multiplier := depth_multiplier cfg;
     data_format_arg := data_format_arg cfg;
     activation := activation cfg;
     use_bias := use_bias cfg;
     depthwise_initializer := depthwise_initializer cfg;
     bias_initializer := bias_initializer cfg;
     depthwise_regularizer := depthwise_regularizer cfg;
     bias_regularizer := bias_regularizer cfg;
     activity_regularizer := activity_regularizer cfg;
     depthwise_constraint := depthwise_constraint cfg;
     bias_constraint := bias_constraint cfg;
     layer_name := layer_name cfg |}.

Definition set_use_bias (v : bool) (cfg : Config T) : Config T :=
  {| kernel_size_arg := kernel_size_arg cfg;
     strides_arg := strides_arg cfg;
     padding := padding cfg;
     common_kernel := common_kernel cfg;
     depth_multiplier := depth_multiplier cfg;
     data_format_arg := data_format_arg cfg;
     activation := activation cfg;
     use_bias := v;
     depthwise_initializer := depthwise_initializer cfg;
     bias_initializer := bias_initializer cfg;
     depthwise_regularizer := depthwise_regularizer cfg;
     bias_regularizer := bias_regularizer cfg;
     activity_regularizer := activity_regularizer cfg;
     depthwise_constraint := depthwise_constraint cfg;
     bias_constraint := bias_constraint cfg;
     layer_name := layer_name cfg |}.

(** The same operator, weights included, with another stride. *)
Definition with_strides (v : nat) (self : DepthwiseConv1D T)
    : DepthwiseConv1D T :=
  {| config := set_strides v (config self);
     channels := channels self;
     depthwise_kernel := depthwise_kernel self;
     bias := bias self;
     input_spec := input_spec self;
     built := built self |}.

(** The same operator and kernel, without its bias. *)
Definition without_bias (self : DepthwiseConv1D T) : DepthwiseConv1D T :=
  {| config := set_use_bias false (config self);
     channels := channels self;
     depthwise_kernel := depthwise_kernel self;
     bias := None;
     input_spec := input_spec self;
     built := built self |}.

End StrideAndBias.

(** * Facts *)

(** ** Tabulated lists and tensors *)

Lemma length_tabulate {A : Type} (n : nat) (f : nat -> A) :
  length (tabulate n f) = n.
Proof. unfold tabulate. now rewrite length_map, length_seq. Qed.

Lemma nth_tabulate {A : Type} (n : nat) (f : nat -> A) (i : nat) (d : A) :
  i < n -> nth i (tabulate n f) d = f i.
Proof.
  intros Hi. unfold tabulate.
  rewrite (nth_indep _ d (f 0)) by now rewrite length_map, length_seq.
  rewrite (map_nth f (seq 0 n) 0 i).
  now rewrite seq_nth.
Qed.

Lemma tabulate_ext {A : Type} (n : nat) (f g : nat -> A) :
  (forall i, i < n -> f i = g i) -> tabulate n f = tabulate n g.
Proof.
  intros H. unfold tabulate. apply map_ext_in.
  intros i Hi. apply in_seq in Hi. apply H. lia.
Qed.

Section TensorFacts.
Context {T : Type} `{Scalar T}.

Lemma dim3_tab3 d (f : nat -> nat -> nat -> T) : dim3 (tab3 d f) = d.
Proof. now destruct d as [[a b] c]. Qed.

Lemma dim4_tab4 d (f : nat -> nat -> nat -> nat -> T) : dim4 (tab4 d f) = d.
Proof. now destruct d as [[[a b] c] e]. Qed.

Lemma get3_tab3 a b c (f : nat -> nat -> nat -> T) i j k :
  i < a -> j < b -> k < c -> get3 (tab3 (a, b, c) f) i j k = f i j k.
Proof.
  intros Hi Hj Hk. unfold get3, tab3. simpl.
  now rewrite !nth_tabulate.
Qed.

Lemma get4_tab4 a b c e (f : nat -> nat -> nat -> nat -> T) i j k l :
  i < a -> j < b -> k < c -> l < e ->
  get4 (tab4 (a, b, c, e) f) i j k l = f i j k l.
Proof.
  intros Hi Hj Hk Hl. unfold get4, tab4. simpl.
  now rewrite !nth_tabulate.
Qed.

Lemma tab3_ext a b c (f g : nat -> nat -> nat -> T) :
  (forall i j k, i < a -> j < b -> k < c -> f i j k = g i j k) ->
  tab3 (a, b, c) f = tab3 (a, b, c) g.
Proof.
  intros E. unfold tab3. f_equal.
  apply tabulate_ext; intros i Hi.
  apply tabulate_ext; intros j Hj.
  apply tabulate_ext; intros k Hk. now apply E.
Qed.

Lemma tab4_ext a b c e (f g : nat -> nat -> nat -> nat -> T) :
  (forall i j k l, i < a -> j < b -> k < c -> l < e ->
     f i j k l = g i j k l) ->
  tab4 (a, b, c, e) f = tab4 (a, b, c, e) g.
Proof.
  intros E. unfold tab4. f_equal.
  apply tabulate_ext; intros i Hi.
  apply tabulate_ext; intros j Hj.
  apply tabulate_ext; intros k Hk.
  apply tabulate_ext; intros l Hl. now apply E.
Qed.

Lemma wf3_tab3 d (f : nat -> nat -> nat -> T) : wf3 (tab3 d f).
Proof.
  destruct d as [[a b] c]. unfold wf3. rewrite dim3_tab3.
  apply tab3_ext. intros. now rewrite get3_tab3.
Qed.

End TensorFacts.

(** ** The primitives on tabulated tensors *)

Section PrimitiveFacts.
Context {T : Type} `{Scalar T}.

Lemma in_range_true lo len i : in_range lo len i = true <-> lo <= i < lo + len.
Proof.
  unfold in_range. rewrite andb_true_iff, Nat.leb_le, Nat.ltb_lt. tauto.
Qed.

Lemma in_range_false lo len i : in_range lo len i = false <-> ~ (lo <= i < lo + len).
Proof.
  rewrite <- in_range_true. destruct (in_range lo len i); split; congruence.
Qed.

Lemma fold_sadd_ext (f g : nat -> T) (l : list nat) (acc : T) :
  (forall k, In k l -> f k = g k) ->
  fold_left (fun a k => sadd a (f k)) l acc =
  fold_left (fun a k => sadd a (g k)) l acc.
Proof.
  revert acc. induction l as [|k l IH]; intros acc E; simpl.
  - reflexivity.
  - rewrite (E k) by now left. apply IH. intros k' Hk'. apply E. now right.
Qed.

Lemma sum_n_ext n (f g : nat -> T) :
  (forall k, k < n -> f k = g k) -> sum_n n f = sum_n n g.
Proof.
  intros E. unfold sum_n. apply fold_sadd_ext.
  intros k Hk. apply in_seq in Hk. apply E. lia.
Qed.

Lemma fold_row (term : nat -> nat -> T) (l : list nat) (acc : T) :
  fold_left (fun a p => sadd a (term (fst p) (snd p)))
    (map (fun y => (0, y)) l ++ []) acc =
  fold_left (fun a k => sadd a (term 0 k)) l acc.
Proof.
  revert acc. induction l as [|k l IH]; intros acc; simpl.
  - reflexivity.
  - apply IH.
Qed.

Lemma window_sum_row n (term : nat -> nat -> T) :
  window_sum 1 n term = sum_n n (term 0).
Proof. unfold window_sum, sum_n. simpl. apply fold_row. Qed.

Lemma expand_dims_0 (x : Tensor3 T) a b c :
  dim3 x = (a, b, c) ->
  expand_dims x 0 = Ok (tab4 (1, a, b, c) (fun _ i j k => get3 x i j k)).
Proof. intros E. unfold expand_dims. now rewrite E. Qed.

Lemma expand_dims_1 (x : Tensor3 T) a b c :
  dim3 x = (a, b, c) ->
  expand_dims x 1 = Ok (tab4 (a, 1, b, c) (fun i _ j k => get3 x i j k)).
Proof. intros E. unfold expand_dims. now rewrite E. Qed.

Lemma expand_dims_2 (x : Tensor3 T) a b c :
  dim3 x = (a, b, c) ->
  expand_dims x 2 = Ok (tab4 (a, b, 1, c) (fun i j _ k => get3 x i j k)).
Proof. intros E. unfold expand_dims. now rewrite E. Qed.

Lemma squeeze_1 a b c (f : nat -> nat -> nat -> nat -> T) :
  squeeze (tab4 (a, 1, b, c) f) [1] = Ok (tab3 (a, b, c) (fun i j k => f i 0 j k)).
Proof.
  unfold squeeze. rewrite dim4_tab4. simpl. f_equal.
  apply tab3_ext. intros. rewrite get4_tab4; auto.
Qed.

Lemma squeeze_2 a b c (f : nat -> nat -> nat -> nat -> T) :
  squeeze (tab4 (a, b, 1, c) f) [2] = Ok (tab3 (a, b, c) (fun i j k => f i j 0 k)).
Proof.
  unfold squeeze. rewrite dim4_tab4. simpl. f_equal.
  apply tab3_ext. intros. rewrite get4_tab4; auto.
Qed.

Lemma conv_out_len_unit p L K S OL :
  0 < S -> conv_out_len p L K S = Ok OL ->
  conv_out_len p 1 1 S = Ok 1 /\ pad_before p 1 1 S 1 = 0.
Proof.
  intros HS E. destruct p; unfold conv_out_len, pad_before in *.
  - split; [|reflexivity].
    change (1 <? 1) with false. cbv iota.
    rewrite Nat.div_small by lia. reflexivity.
  - replace (1 + S - 1) with S by lia. rewrite Nat.div_same by lia.
    split; [reflexivity|].
    replace ((1 - 1) * S + 1 - 1) with 0 by lia. reflexivity.
  - discriminate.
Qed.

Lemma channel_split o C M : o < C * M -> o / M < C /\ o mod M < M.
Proof.
  intros Ho. assert (M <> 0) by (intros ->; lia). split.
  - apply Nat.Div0.div_lt_upper_bound. lia.
  - now apply Nat.mod_upper_bound.
Qed.

End PrimitiveFacts.

Section ConvFacts.
Context {T : Type} `{Scalar T}.

(** [nn.depthwise_conv2d] on an input of height 1 and a filter of height 1
    is a one-dimensional sliding-window sum, in either layout. *)
Lemma depthwise_conv2d_row_NHWC B L C K M S p OL
    (fi ff : nat -> nat -> nat -> nat -> T) :
  0 < S -> conv_out_len p L K S = Ok OL ->
  depthwise_conv2d (tab4 (B, 1, L, C) fi) (tab4 (1, K, C, M) ff)
    [1; S; S; 1] p NHWC =
  Ok (tab4 (B, 1, OL, C * M) (fun b _ t o =>
        sum_n K (fun k =>
          smul (if in_range (pad_before p L K S OL) L (t * S + k)
                then fi b 0 (t * S + k - pad_before p L K S OL) (o / M)
                else szero)
               (ff 0 k (o / M) (o mod M))))).
Proof.
  intros HS E. destruct (conv_out_len_unit p L K S OL HS E) as [E1 P1].
  unfold depthwise_conv2d. rewrite !dim4_tab4.
  cbn [nhwc_dims window_strides].
  rewrite !Nat.eqb_refl.
  destruct (Nat.eqb_spec S 0) as [->|_]; [lia|].
  cbn [negb orb]. rewrite E1, E. cbn [rbind]. rewrite P1.
  cbn [build_nhwc]. f_equal. apply tab4_ext.
  intros b i t o Hb Hi Ht Ho.
  destruct (channel_split o C M Ho) as [Hc Hm].
  assert (i = 0) as -> by lia.
  rewrite window_sum_row. apply sum_n_ext. intros k Hk.
  rewrite (get4_tab4 1 K C M) by (auto; lia).
  f_equal. unfold in_window. cbn [Nat.mul Nat.add].
  change (in_range 0 1 0) with true. cbn [andb].
  destruct (in_range _ L (t * S + k)) eqn:R; [|reflexivity].
  apply in_range_true in R. unfold read_nhwc.
  rewrite get4_tab4 by lia. reflexivity.
Qed.

Lemma depthwise_conv2d_row_NCHW B L C K M S p OL
    (fi ff : nat -> nat -> nat -> nat -> T) :
  0 < S -> conv_out_len p L K S = Ok OL ->
  depthwise_conv2d (tab4 (B, C, 1, L) fi) (tab4 (1, K, C, M) ff)
    [1; 1; S; S] p NCHW =
  Ok (tab4 (B, C * M, 1, OL) (fun b o _ t =>
        sum_n K (fun k =>
          smul (if in_range (pad_before p L K S OL) L (t * S + k)
                then fi b (o / M) 0 (t * S + k - pad_before p L K S OL)
                else szero)
               (ff 0 k (o / M) (o mod M))))).
Proof.
  intros HS E. destruct (conv_out_len_unit p L K S OL HS E) as [E1 P1].
  unfold depthwise_conv2d. rewrite !dim4_tab4.
  cbn [nhwc_dims window_strides].
  rewrite !Nat.eqb_refl.
  destruct (Nat.eqb_spec S 0) as [->|_]; [lia|].
  cbn [negb orb]. rewrite E1, E. cbn [rbind]. rewrite P1.
  cbn [build_nhwc]. f_equal. apply tab4_ext.
  intros b o i t Hb Ho Hi Ht.
  destruct (channel_split o C M Ho) as [Hc Hm].
  assert (i = 0) as -> by lia.
  rewrite window_sum_row. apply sum_n_ext. intros k Hk.
  rewrite (get4_tab4 1 K C M) by (auto; lia).
  f_equal. unfold in_window. cbn [Nat.mul Nat.add].
  change (in_range 0 1 0) with true. cbn [andb].
  destruct (in_range _ L (t * S + k)) eqn:R; [|reflexivity].
  apply in_range_true in R. unfold read_nhwc.
  rewrite get4_tab4 by lia. reflexivity.
Qed.

End ConvFacts.

(** ** The stages of [call] *)

Section CallStages.
Context {T : Type} `{Scalar T}.

Lemma kernel_size_item (cfg : Config T) :
  py_getitem (kernel_size cfg) 0 = Ok (kernel_size_arg cfg).
Proof. reflexivity. Qed.

Lemma dilation_rate_item (cfg : Config T) :
  py_getitem (dilation_rate cfg) 0 = Ok 1.
Proof. reflexivity. Qed.

Lemma strides_twice (cfg : Config T) :
  tuple_mul (strides cfg) 2 = [strides_arg cfg; strides_arg cfg].
Proof. reflexivity. Qed.

Lemma in_range_zero len i : i < len -> in_range 0 len i = true.
Proof. intros Hi. apply in_range_true. lia. Qed.

(** Causal mode pads [K - 1] zeros in front of the spatial axis and none
    behind it; the other modes leave the input alone. *)
Lemma pad_stage (cfg : Config T) (x : Tensor3 T) B L C :
  0 < kernel_size_arg cfg ->
  blc (data_format cfg) (dim3 x) = (B, L, C) ->
  exists x',
    (if Padding_eqb (padding cfg) causal
     then p <- _compute_causal_padding cfg ;; pad x p
     else Ok x) = Ok x' /\
    blc (data_format cfg) (dim3 x') =
      (B, (if Padding_eqb (padding cfg) causal
           then kernel_size_arg cfg - 1 + L else L), C) /\
    forall b q c, b < B -> c < C ->
      q < (if Padding_eqb (padding cfg) causal
           then kernel_size_arg cfg - 1 + L else L) ->
      cell_at (data_format cfg) x' b q c =
        if Padding_eqb (padding cfg) causal
        then (if in_range (kernel_size_arg cfg - 1) L q
              then cell_at (data_format cfg) x b (q - (kernel_size_arg cfg - 1)) c
              else szero)
        else cell_at (data_format cfg) x b q c.
Proof.
  intros HK D.
  destruct (Padding_eqb (padding cfg) causal).
  2:{ exists x. repeat split; auto. }
  unfold _compute_causal_padding.
  rewrite dilation_rate_item, kernel_size_item. cbn [rbind].
  set (K := kernel_size_arg cfg) in *.
  replace (Z.of_nat 1 * (Z.of_nat K - 1))%Z with (Z.of_nat (K - 1)) by lia.
  assert (N : (Z.of_nat (K - 1) <? 0)%Z = false) by (apply Z.ltb_ge; lia).
  unfold pad.
  destruct (data_format cfg); cbn [blc] in D;
    destruct (dim3 x) as [[d0 d1] d2]; inversion D; subst; clear D;
    cbn [existsb]; rewrite N; change (0 <? 0)%Z with false; cbn [orb];
    rewrite Nat2Z.id; change (Z.to_nat 0) with 0;
    eexists; (split; [reflexivity|]); rewrite dim3_tab3; cbn [blc cell_at];
    (split; [f_equal; [f_equal|]; lia|]);
    intros b q c Hb Hc Hq; rewrite get3_tab3 by lia;
    rewrite !in_range_zero by lia; cbn [andb];
    rewrite ?andb_true_r, ?Nat.sub_0_r; reflexivity.
Qed.

(** With a common kernel the stored filter bank is repeated for every
    channel, and so is the bias; tiling the bias needs a bias. *)
Lemma kernel_stage (self : DepthwiseConv1D T) :
  Built self ->
  (common_kernel (config self) = true -> use_bias (config self) = true) ->
  exists ke bke,
    (if common_kernel (config self)
     then bias_kernel <- tile1 (bias self) (channels self) ;;
          Ok (tile3 (depthwise_kernel self) (1, channels self, 1),
              Some bias_kernel)
     else Ok (depthwise_kernel self, bias self)) = Ok (ke, bke) /\
    dim3 ke = (kernel_size_arg (config self), channels self,
               depth_multiplier (config self)) /\
    (forall k c m,
       k < kernel_size_arg (config self) -> c < channels self ->
       m < depth_multiplier (config self) ->
       get3 ke k c m =
       get3 (depthwise_kernel self) k
         (if common_kernel (config self) then 0 else c) m) /\
    (use_bias (config self) = true ->
     exists bk bv,
       bke = Some bk /\ bias self = Some bv /\
       length bk = channels self * depth_multiplier (config self) /\
       forall o, o < channels self * depth_multiplier (config self) ->
         get1 bk o =
         get1 bv (if common_kernel (config self)
                  then o mod depth_multiplier (config self) else o)).
Proof.
  intros [_ HK HS Dk Hb _] Hc.
  destruct (common_kernel (config self)) eqn:CK.
  - rewrite (Hc eq_refl) in Hb. destruct Hb as (bv & Eb & Lb).
    rewrite Eb. cbn [tile1 rbind].
    eexists _, _. split; [reflexivity|].
    unfold tile3. rewrite Dk, dim3_tab3.
    split; [f_equal; [f_equal|]; lia|].
    split.
    + intros k c m Hk Hcc Hm. rewrite get3_tab3 by lia.
      rewrite (Nat.mod_small k), (Nat.mod_small m), Nat.mod_1_r by lia.
      reflexivity.
    + intros _. eexists _, bv. split; [reflexivity|]. split; [reflexivity|].
      rewrite length_tabulate. split; [lia|].
      intros o Ho. unfold get1 at 1. rewrite nth_tabulate by lia.
      rewrite Lb, Nat.mul_1_l. reflexivity.
  - eexists _, _. split; [reflexivity|]. split; [exact Dk|].
    split; [reflexivity|].
    intros UB. rewrite UB in Hb. destruct Hb as (bv & Eb & Lb).
    exists bv, bv. auto.
Qed.

(** The primitive is asked for ['VALID'] in causal mode, on the padded
    length, and returns the length the specification gives. *)
Lemma length_stage p K S L :
  0 < K -> 0 < S -> window_fits p K L ->
  conv_out_len (if Padding_eqb p causal then valid else p)
    (if Padding_eqb p causal then K - 1 + L else L) K S =
  Ok (new_length p K S L).
Proof.
  intros HK HS HW. destruct p; cbn [Padding_eqb conv_out_len new_length window_fits] in *.
  - destruct (Nat.ltb_spec L K); [lia|]. reflexivity.
  - reflexivity.
  - destruct (Nat.ltb_spec (K - 1 + L) K); [lia|].
    replace (K - 1 + L - K) with (L + (K - 1) - K) by lia. reflexivity.
Qed.

Lemma read_stage fmt p K S (x x' : Tensor3 T) B L C b q c :
  blc fmt (dim3 x) = (B, L, C) ->
  (forall q', q' < (if Padding_eqb p causal then K - 1 + L else L) ->
     cell_at fmt x' b q' c =
       if Padding_eqb p causal
       then (if in_range (K - 1) L q'
             then cell_at fmt x b (q' - (K - 1)) c else szero)
       else cell_at fmt x b q' c) ->
  (if in_range
        (pad_before (if Padding_eqb p causal then valid else p)
           (if Padding_eqb p causal then K - 1 + L else L) K S
           (new_length p K S L))
        (if Padding_eqb p causal then K - 1 + L else L) q
   then cell_at fmt x' b
          (q - pad_before (if Padding_eqb p causal then valid else p)
                 (if Padding_eqb p causal then K - 1 + L else L) K S
                 (new_length p K S L)) c
   else szero) =
  input_padded fmt p K S x b q c.
Proof.
  intros D R. unfold input_padded. rewrite D. cbn [fst snd].
  destruct p; cbn [Padding_eqb pad_before left_pad] in *.
  - destruct (in_range 0 L q) eqn:E; [|reflexivity].
    apply in_range_true in E. apply R. lia.
  - destruct (in_range _ L q) eqn:E; [|reflexivity].
    apply in_range_true in E. apply R. lia.
  - destruct (in_range 0 (K - 1 + L) q) eqn:E.
    + apply in_range_true in E. rewrite R by lia.
      rewrite Nat.sub_0_r. reflexivity.
    + apply in_range_false in E.
      destruct (in_range (K - 1) L q) eqn:E'; [|reflexivity].
      apply in_range_true in E'. lia.
Qed.

End CallStages.

(** ** The forward pass computes the specified sum *)

Section Forward.
Context {T : Type} `{Scalar T}.

Lemma channel_join o M : o / M * M + o mod M = o.
Proof. pose proof (Nat.div_mod_eq o M). lia. Qed.

Lemma conv_value_stage (self : DepthwiseConv1D T) (x x' ke : Tensor3 T)
    B L C b t o :
  let cfg := config self in
  let p := padding cfg in
  let K := kernel_size_arg cfg in
  let S := strides_arg cfg in
  let M := depth_multiplier cfg in
  let L' := if Padding_eqb p causal then K - 1 + L else L in
  let pl := pad_before (if Padding_eqb p causal then valid else p) L' K S
              (new_length p K S L) in
  blc (data_format cfg) (dim3 x) = (B, L, C) ->
  b < B -> o < C * M ->
  (forall b q c, b < B -> c < C -> q < L' ->
     cell_at (data_format cfg) x' b q c =
       if Padding_eqb p causal
       then (if in_range (K - 1) L q
             then cell_at (data_format cfg) x b (q - (K - 1)) c else szero)
       else cell_at (data_format cfg) x b q c) ->
  (forall k c m, k < K -> c < C -> m < M ->
     get3 ke k c m =
     get3 (depthwise_kernel self) k (if common_kernel cfg then 0 else c) m) ->
  sum_n K (fun k =>
    smul (if in_range pl L' (t * S + k)
          then cell_at (data_format cfg) x' b (t * S + k - pl) (o / M)
          else szero)
         (get3 ke k (o / M) (o mod M))) =
  sum_n K (fun k =>
    smul (input_padded (data_format cfg) p K S x b (t * S + k) (o / M))
         (get3 (depthwise_kernel self) k
            (if common_kernel cfg then 0 else o / M) (o mod M))).
Proof.
  intros cfg p K S M L' pl D Hb Ho RA RB.
  destruct (channel_split o C M Ho) as [Hc Hm].
  apply sum_n_ext. intros k Hk. f_equal.
  - apply (read_stage _ p K S x x' B L C); auto.
  - now apply RB.
Qed.

(** Whenever the bias can be tiled, [call] succeeds on a conforming input
    and returns the tensor the specification describes. *)
Lemma call_forward_spec (self : DepthwiseConv1D T) (x : Tensor3 T) :
  Built self -> Conforming self x ->
  (common_kernel (config self) = true -> use_bias (config self) = true) ->
  call self x = Ok (forward_spec self x).
Proof.
  intros HB HC Hcb. unfold Conforming in HC.
  destruct (blc (data_format (config self)) (dim3 x)) as [[B L] C] eqn:D.
  destruct HC as [HCc HW].
  destruct (pad_stage (config self) x B L C (built_K _ HB) D)
    as (x' & EA & DA & RA).
  destruct (kernel_stage self HB Hcb) as (ke & bke & EB & DB & RB & BB).
  pose proof (length_stage _ _ _ L (built_K _ HB) (built_S _ HB) HW) as EL.
  pose proof (built_S _ HB) as HS.
  assert (OUT : forall out,
            out = forward_linear self x ->
            match activation (config self) with
            | Some a => Ok (act_fn a out)
            | None => Ok out
            end = Ok (forward_spec self x)).
  { intros out ->. unfold forward_spec. now destruct (activation (config self)). }
  unfold call. cbv zeta. rewrite EA. cbn [rbind]. rewrite strides_twice.
  unfold forward_linear in OUT. rewrite D in OUT. subst C.
  destruct (data_format (config self)) eqn:F;
    cbn [DataFormat_eqb fst snd app convert_data_format blc tab_blc] in *.
  - rewrite (expand_dims_1 x' _ _ _ DA). cbn [rbind].
    rewrite EB. cbn [rbind fst snd].
    rewrite (expand_dims_0 ke _ _ _ DB). cbn [rbind].
    rewrite (depthwise_conv2d_row_NHWC _ _ _ _ _ _ _ _ _ _ HS EL). cbn [rbind].
    rewrite squeeze_1. cbn [rbind].
    destruct (use_bias (config self)) eqn:UB.
    + destruct (BB eq_refl) as (bk & bv & -> & Ebv & Lbk & Rbk).
      unfold bias_add. rewrite dim3_tab3, Lbk, Nat.eqb_refl. cbn [rbind].
      apply OUT. apply tab3_ext. intros b t o Hb Ht Ho.
      rewrite get3_tab3 by auto. unfold conv_value. rewrite UB, Ebv, Rbk by auto.
      f_equal.
      * pose proof (conv_value_stage self x x' ke B L (channels self) b t o) as CV.
        cbv zeta in CV. rewrite F in CV. rewrite F. now apply CV.
      * destruct (common_kernel (config self)); [reflexivity|].
        now rewrite channel_join.
    + cbn [rbind]. apply OUT. apply tab3_ext. intros b t o Hb Ht Ho.
      unfold conv_value. rewrite UB.
      pose proof (conv_value_stage self x x' ke B L (channels self) b t o) as CV.
      cbv zeta in CV. rewrite F in CV. rewrite F. now apply CV.
  - destruct (dim3 x') as [[a1 a2] a3] eqn:Dx'. inversion DA; subst a1 a2 a3.
    rewrite (expand_dims_2 x' _ _ _ Dx'). cbn [rbind].
    rewrite EB. cbn [rbind fst snd].
    rewrite (expand_dims_0 ke _ _ _ DB). cbn [rbind].
    rewrite (depthwise_conv2d_row_NCHW _ _ _ _ _ _ _ _ _ _ HS EL). cbn [rbind].
    rewrite squeeze_2. cbn [rbind].
    destruct (use_bias (config self)) eqn:UB.
    + destruct (BB eq_refl) as (bk & bv & -> & Ebv & Lbk & Rbk).
      unfold bias_add. rewrite dim3_tab3, Lbk, Nat.eqb_refl. cbn [rbind].
      apply OUT. apply tab3_ext. intros b o t Hb Ho Ht.
      rewrite get3_tab3 by auto. unfold conv_value. rewrite UB, Ebv, Rbk by auto.
      f_equal.
      * pose proof (conv_value_stage self x x' ke B L (channels self) b t o) as CV.
        cbv zeta in CV. rewrite F in CV. rewrite F. now apply CV.
      * destruct (common_kernel (config self)); [reflexivity|].
        now rewrite channel_join.
    + cbn [rbind]. apply OUT. apply tab3_ext. intros b o t Hb Ho Ht.
      unfold conv_value. rewrite UB.
      pose proof (conv_value_stage self x x' ke B L (channels self) b t o) as CV.
      cbv zeta in CV. rewrite F in CV. rewrite F. now apply CV.
Qed.

End Forward.


(** ** Build *)

Section BuildFacts.
Context {T : Type} `{Scalar T}.

Lemma dim3_add_weight3 shape (init : Initializer T) :
  dim3 (add_weight3 shape init) = shape.
Proof. destruct shape as [[a b] c]. apply dim3_tab3. Qed.

Lemma wf3_add_weight3 shape (init : Initializer T) : wf3 (add_weight3 shape init).
Proof. destruct shape as [[a b] c]. apply wf3_tab3. Qed.

Lemma build_rank3 (cfg : Config T) (d0 d1 d2 : option nat) :
  build cfg [d0; d1; d2] =
  match (match data_format cfg with channels_first => d1 | channels_last => d2 end) with
  | None => Err ValueError
  | Some input_dim =>
      Ok {| config := cfg;
            channels := input_dim;
            depthwise_kernel :=
              add_weight3 (kernel_size_arg cfg,
                           (if common_kernel cfg then 1 else input_dim),
                           depth_multiplier cfg) (depthwise_initializer cfg);
            bias :=
              if use_bias cfg
              then Some (add_weight1
                           ((if common_kernel cfg then 1 else input_dim)
                            * depth_multiplier cfg) (bias_initializer cfg))
              else None;
            input_spec := {| ndim := 3;
                             axes := [(_get_channel_axis cfg, input_dim)] |};
            built := true |}
  end.
Proof.
  unfold build, _get_channel_axis.
  destruct (data_format cfg); cbn [DataFormat_eqb length Nat.eqb negb].
  - change (py_getitem [d0; d1; d2] (-1)) with (Ok d2). cbn [rbind].
    destruct d2; [|reflexivity]. now rewrite kernel_size_item.
  - change (py_getitem [d0; d1; d2] 1) with (Ok d1). cbn [rbind].
    destruct d1; [|reflexivity]. now rewrite kernel_size_item.
Qed.

Lemma build_bad_rank (cfg : Config T) (shape : list (option nat)) :
  length shape <> 3 -> build cfg shape = Err ValueError.
Proof.
  intros Hn. unfold build.
  destruct (Nat.eqb_spec (length shape) 3); [contradiction|reflexivity].
Qed.

Lemma channel_dim_rank3 (fmt : DataFormat) (d0 d1 d2 : option nat) :
  channel_dim fmt [d0; d1; d2] =
  match fmt with channels_first => d1 | channels_last => d2 end.
Proof. destruct fmt; [destruct d2|destruct d1]; reflexivity. Qed.

(** [build] leaves a built operator behind. *)
Lemma build_Built (cfg : Config T) (shape : list (option nat))
    (self : DepthwiseConv1D T) :
  0 < kernel_size_arg cfg -> 0 < strides_arg cfg ->
  build cfg shape = Ok self -> Built self.
Proof.
  intros HK HS E.
  destruct (Nat.eq_dec (length shape) 3) as [L3|N3].
  2:{ rewrite build_bad_rank in E by assumption. discriminate. }
  destruct shape as [|d0 [|d1 [|d2 [|? ?]]]]; try discriminate.
  rewrite build_rank3 in E.
  destruct (match data_format cfg with channels_first => d1 | channels_last => d2 end)
    as [ci|]; [|discriminate].
  inversion E; subst self; clear E.
  split; cbn [config channels depthwise_kernel bias input_spec built]; auto.
  destruct (use_bias cfg); [|reflexivity].
  eexists. split; [reflexivity|]. unfold add_weight1. now rewrite length_tabulate.
Qed.

End BuildFacts.

Section Claim7.
Context {T : Type} `{Scalar T}.

(** C7. [build] raises the shape error ([ValueError]) exactly when the
    input shape does not have rank 3 or its channel dimension (axis 1 for
    [channels_first], the last axis for [channels_last]) is unknown;
    otherwise it records [channels = C_in], allocates a kernel of shape
    [(K, kernel_dim, M)] with [kernel_dim = 1] for a common kernel and
    [C_in] otherwise, allocates a bias of shape [(kernel_dim * M,)] if and
    only if [use_bias], and marks the operator built. *)
Theorem build_validates_and_allocates (cfg : Config T) (shape : list (option nat)) :
  (build cfg shape = Err ValueError <->
     (length shape <> 3 \/ channel_dim (data_format cfg) shape = None)) /\
  (forall C_in,
     length shape = 3 ->
     channel_dim (data_format cfg) shape = Some C_in ->
     exists self,
       build cfg shape = Ok self /\
       config self = cfg /\
       channels self = C_in /\
       wf3 (depthwise_kernel self) /\
       dim3 (depthwise_kernel self) =
         (kernel_size_arg cfg, (if common_kernel cfg then 1 else C_in),
          depth_multiplier cfg) /\
       (if use_bias cfg
        then exists bv, bias self = Some bv /\
               length bv = (if common_kernel cfg then 1 else C_in)
                           * depth_multiplier cfg
        else bias self = None) /\
       built self = true).
Proof.
  destruct (Nat.eq_dec (length shape) 3) as [L3|N3].
  2:{ split; [|intros; contradiction].
      rewrite build_bad_rank by assumption. split; auto. }
  destruct shape as [|d0 [|d1 [|d2 [|? ?]]]]; try discriminate.
  rewrite build_rank3, channel_dim_rank3.
  destruct (match data_format cfg with channels_first => d1 | channels_last => d2 end)
    as [ci|].
  - split.
    + split; [discriminate|]. intros [N|N]; [contradiction|discriminate].
    + intros C_in _ E. inversion E; subst C_in.
      eexists. split; [reflexivity|].
      cbn [config channels depthwise_kernel bias built].
      split; [reflexivity|]. split; [reflexivity|].
      split; [apply wf3_add_weight3|].
      split; [apply dim3_add_weight3|].
      split; [|reflexivity].
      destruct (use_bias cfg); [|reflexivity].
      eexists. split; [reflexivity|].
      unfold add_weight1. now rewrite length_tabulate.
  - split.
    + split; auto.
    + intros C_in _ E. discriminate.
Qed.

End Claim7.

(** The case of C7 exercised on a concrete shape. *)
Lemma build_validates_and_allocates_witness :
  exists self,
    build (Samples.layer 3 1 valid false 2 None None true)
      [None; Some 10; Some 3] = Ok self /\
    channels self = 3 /\
    dim3 (depthwise_kernel self) = (3, 3, 2) /\
    (exists bv, bias self = Some bv /\ length bv = 6) /\
    built self = true.
Proof.
  destruct (build_validates_and_allocates
              (Samples.layer 3 1 valid false 2 None None true)
              [None; Some 10; Some 3]) as [_ W].
  destruct (W 3 eq_refl eq_refl) as (self & E & _ & Ec & _ & Ed & Eb & Et).
  exists self. repeat split; assumption.
Defined.

(** ** Failing forward calls *)

Section Failures.
Context {T : Type} `{Scalar T}.

Lemma pad_stage_total (cfg : Config T) (x : Tensor3 T) :
  (exists x',
     (if Padding_eqb (padding cfg) causal
      then p <- _compute_causal_padding cfg ;; pad x p
      else Ok x) = Ok x') \/
  (if Padding_eqb (padding cfg) causal
   then p <- _compute_causal_padding cfg ;; pad x p
   else Ok x) = Err ValueError.
Proof.
  destruct (Padding_eqb (padding cfg) causal); [|left; now exists x].
  unfold _compute_causal_padding.
  rewrite dilation_rate_item, kernel_size_item. cbn [rbind].
  unfold pad.
  destruct (data_format cfg);
    match goal with
    | |- context [existsb ?f ?l] => destruct (existsb f l)
    end; auto;
    destruct (dim3 x) as [[d0 d1] d2]; left; eexists; reflexivity.
Qed.

Lemma expand_dims_total (x : Tensor3 T) (axis : nat) :
  axis <= 3 -> exists y, expand_dims x axis = Ok y.
Proof.
  intros Ha. unfold expand_dims. destruct (dim3 x) as [[d0 d1] d2].
  destruct axis as [|[|[|[|?]]]]; try lia; eexists; reflexivity.
Qed.

(** The common-kernel branch tiles the bias before anything else is done
    with it, so a missing bias stops every call. *)
Lemma call_tiles_missing_bias (self : DepthwiseConv1D T) (x : Tensor3 T) :
  common_kernel (config self) = true -> bias self = None ->
  call self x = Err ValueError.
Proof.
  intros CK NB. unfold call. cbv zeta.
  destruct (pad_stage_total (config self) x) as [[x' E]|E]; rewrite E;
    [|reflexivity].
  cbn [rbind].
  destruct (expand_dims_total x'
              (snd (if DataFormat_eqb (data_format (config self)) channels_last
                    then ([1] ++ tuple_mul (strides (config self)) 2 ++ [1], 1)
                    else ([1; 1] ++ tuple_mul (strides (config self)) 2, 2))))
    as [y Ey].
  { destruct (DataFormat_eqb _ _); cbn [snd]; lia. }
  rewrite Ey. cbn [rbind]. rewrite CK, NB. reflexivity.
Qed.

(** The [InputSpec] that [build] stores pins the channel axis. *)
Lemma input_check (self : DepthwiseConv1D T) (x : Tensor3 T) B L C :
  Built self ->
  blc (data_format (config self)) (dim3 x) = (B, L, C) ->
  assert_input_compatibility (input_spec self) (shape_list x) =
  if C =? channels self then Ok tt else Err ValueError.
Proof.
  intros HB D. rewrite (built_spec _ HB).
  unfold assert_input_compatibility, shape_list, _get_channel_axis.
  destruct (dim3 x) as [[d0 d1] d2].
  destruct (data_format (config self)); cbn [blc] in D; inversion D; subst;
    reflexivity.
Qed.

Lemma conv_channel_mismatch fmt (input filter : Tensor4 T) strides p
    n h w c fh fw fc m :
  nhwc_dims fmt (dim4 input) = (n, h, w, c) ->
  dim4 filter = (fh, fw, fc, m) ->
  c <> fc ->
  depthwise_conv2d input filter strides p fmt = Err ValueError.
Proof.
  intros Di Df Hne. unfold depthwise_conv2d. rewrite Di, Df.
  destruct (window_strides fmt strides) as [[sh sw]|]; [|reflexivity].
  destruct (negb (sh =? sw) || (sh =? 0)); [reflexivity|].
  destruct (Nat.eqb_spec c fc); [contradiction|reflexivity].
Qed.

(** A channel count other than the recorded one stops [call] itself, at
    the latest in the convolution primitive. *)
Lemma call_channel_mismatch (self : DepthwiseConv1D T) (x : Tensor3 T) B L C :
  Built self ->
  blc (data_format (config self)) (dim3 x) = (B, L, C) ->
  C <> channels self ->
  call self x = Err ValueError.
Proof.
  intros HB D Hne.
  assert (KS : (common_kernel (config self) = true /\
                use_bias (config self) = false) \/
               (common_kernel (config self) = true ->
                use_bias (config self) = true)).
  { destruct (common_kernel (config self)), (use_bias (config self)); auto;
      right; discriminate. }
  destruct KS as [[CK UB]|KS].
  { apply call_tiles_missing_bias; auto.
    pose proof (built_bias _ HB) as Hb. now rewrite UB in Hb. }
  destruct (pad_stage (config self) x B L C (built_K _ HB) D)
    as (x' & EA & DA & _).
  destruct (kernel_stage self HB KS) as (ke & bke & EB & DB & _).
  unfold call. cbv zeta. rewrite EA. cbn [rbind]. rewrite strides_twice.
  destruct (data_format (config self));
    cbn [DataFormat_eqb fst snd app convert_data_format blc] in *.
  - rewrite (expand_dims_1 x' _ _ _ DA). cbn [rbind].
    rewrite EB. cbn [rbind fst snd].
    rewrite (expand_dims_0 ke _ _ _ DB). cbn [rbind].
    erewrite conv_channel_mismatch; [reflexivity| | |exact Hne];
      rewrite dim4_tab4; reflexivity.
  - destruct (dim3 x') as [[a1 a2] a3] eqn:Dx'. inversion DA; subst a1 a2 a3.
    rewrite (expand_dims_2 x' _ _ _ Dx'). cbn [rbind].
    rewrite EB. cbn [rbind fst snd].
    rewrite (expand_dims_0 ke _ _ _ DB). cbn [rbind].
    erewrite conv_channel_mismatch; [reflexivity| | |exact Hne];
      rewrite dim4_tab4; reflexivity.
Qed.

Lemma conv_out_len_error p len flt stride e :
  conv_out_len p len flt stride = Err e -> e = ValueError.
Proof.
  destruct p; cbn [conv_out_len]; try destruct (len <? flt); congruence.
Qed.

Lemma conv_window_too_long fmt (input filter : Tensor4 T) strides p
    n w c fw fc m :
  nhwc_dims fmt (dim4 input) = (n, 1, w, c) ->
  dim4 filter = (1, fw, fc, m) ->
  (forall sh sw, window_strides fmt strides = Some (sh, sw) ->
     conv_out_len p w fw sw = Err ValueError) ->
  depthwise_conv2d input filter strides p fmt = Err ValueError.
Proof.
  intros Di Df Hw. unfold depthwise_conv2d. rewrite Di, Df.
  destruct (window_strides fmt strides) as [[sh sw]|]; [|reflexivity].
  destruct (negb (sh =? sw) || (sh =? 0)); [reflexivity|].
  destruct (negb (c =? fc)); [reflexivity|].
  destruct (conv_out_len p 1 1 sh) as [oh|e] eqn:E1; cbn [rbind].
  - now rewrite (Hw sh sw eq_refl).
  - now rewrite (conv_out_len_error _ _ _ _ _ E1).
Qed.

Lemma length_stage_fail p K S L :
  ~ window_fits p K L ->
  conv_out_len (if Padding_eqb p causal then valid else p)
    (if Padding_eqb p causal then K - 1 + L else L) K S = Err ValueError.
Proof.
  intros HW. destruct p; cbn [Padding_eqb conv_out_len window_fits] in *.
  - destruct (Nat.ltb_spec L K); [reflexivity|lia].
  - tauto.
  - destruct (Nat.ltb_spec (K - 1 + L) K); [reflexivity|lia].
Qed.

Lemma Conforming_dec (self : DepthwiseConv1D T) (x : Tensor3 T) :
  Conforming self x \/ ~ Conforming self x.
Proof.
  unfold Conforming.
  destruct (blc (data_format (config self)) (dim3 x)) as [[B L] C].
  destruct (Nat.eq_dec C (channels self)); [|right; tauto].
  destruct (padding (config self)); cbn [window_fits].
  - destruct (le_dec (kernel_size_arg (config self)) L); [left|right]; tauto.
  - left. tauto.
  - destruct (le_dec (kernel_size_arg (config self))
                (L + (kernel_size_arg (config self) - 1))); [left|right]; tauto.
Qed.

(** An input too short for the window stops [call] in the convolution
    primitive. *)
Lemma call_window_too_long (self : DepthwiseConv1D T) (x : Tensor3 T) B L C :
  Built self ->
  blc (data_format (config self)) (dim3 x) = (B, L, C) ->
  ~ window_fits (padding (config self)) (kernel_size_arg (config self)) L ->
  call self x = Err ValueError.
Proof.
  intros HB D HW.
  assert (KS : (common_kernel (config self) = true /\
                use_bias (config self) = false) \/
               (common_kernel (config self) = true ->
                use_bias (config self) = true)).
  { destruct (common_kernel (config self)), (use_bias (config self)); auto;
      right; discriminate. }
  destruct KS as [[CK UB]|KS].
  { apply call_tiles_missing_bias; auto.
    pose proof (built_bias _ HB) as Hb. now rewrite UB in Hb. }
  destruct (pad_stage (config self) x B L C (built_K _ HB) D)
    as (x' & EA & DA & _).
  destruct (kernel_stage self HB KS) as (ke & bke & EB & DB & _).
  pose proof (length_stage_fail _ _ (strides_arg (config self)) _ HW) as EL.
  unfold call. cbv zeta. rewrite EA. cbn [rbind]. rewrite strides_twice.
  destruct (data_format (config self));
    cbn [DataFormat_eqb fst snd app convert_data_format blc] in *.
  - rewrite (expand_dims_1 x' _ _ _ DA). cbn [rbind].
    rewrite EB. cbn [rbind fst snd].
    rewrite (expand_dims_0 ke _ _ _ DB). cbn [rbind].
    erewrite conv_window_too_long; [reflexivity| | |];
      [rewrite dim4_tab4; reflexivity | rewrite dim4_tab4; reflexivity|].
    intros sh sw Q. cbn [window_strides] in Q. inversion Q; subst. exact EL.
  - destruct (dim3 x') as [[a1 a2] a3] eqn:Dx'. inversion DA; subst a1 a2 a3.
    rewrite (expand_dims_2 x' _ _ _ Dx'). cbn [rbind].
    rewrite EB. cbn [rbind fst snd].
    rewrite (expand_dims_0 ke _ _ _ DB). cbn [rbind].
    erewrite conv_window_too_long; [reflexivity| | |];
      [rewrite dim4_tab4; reflexivity | rewrite dim4_tab4; reflexivity|].
    intros sh sw Q. cbn [window_strides] in Q. inversion Q; subst. exact EL.
Qed.

(** On a built operator every input that does not conform is refused. *)
Lemma call_not_conforming (self : DepthwiseConv1D T) (x : Tensor3 T) :
  Built self -> ~ Conforming self x -> call self x = Err ValueError.
Proof.
  intros HB HN. unfold Conforming in HN.
  destruct (blc (data_format (config self)) (dim3 x)) as [[B L] C] eqn:D.
  destruct (Nat.eq_dec C (channels self)) as [EC|NC].
  - apply (call_window_too_long self x B L C); auto.
  - now apply (call_channel_mismatch self x B L C).
Qed.

End Failures.

Section Claim10.
Context {T : Type} `{Scalar T}.

(** C10. On an operator built with [common_kernel = true] and
    [use_bias = false] every forward call raises instead of returning a
    tensor: the common-kernel branch tiles the bias unconditionally, and
    [build] left the bias [None]. This holds for [call] and for the
    framework entry point that checks the input first. *)
Theorem common_kernel_without_bias_raises (self : DepthwiseConv1D T)
    (x : Tensor3 T) :
  Built self ->
  common_kernel (config self) = true ->
  use_bias (config self) = false ->
  call self x = Err ValueError /\ Layer_call self x = Err ValueError.
Proof.
  intros HB CK UB.
  assert (NB : bias self = None).
  { pose proof (built_bias _ HB) as Hb. now rewrite UB in Hb. }
  pose proof (call_tiles_missing_bias self x CK NB) as E.
  split; [exact E|].
  unfold Layer_call. rewrite E.
  destruct (blc (data_format (config self)) (dim3 x)) as [[B L] C] eqn:D.
  rewrite (input_check self x B L C HB D).
  now destruct (C =? channels self).
Qed.

End Claim10.

(** C10 on a concrete operator: common kernel, no bias, ['same'] padding. *)
Lemma common_kernel_without_bias_raises_witness :
  exists self,
    build (Samples.layer 3 1 same true 1 None None false)
      [None; Some 10; Some 3] = Ok self /\
    call self (Samples.signal 2 10 3) = Err ValueError /\
    Layer_call self (Samples.signal 2 10 3) = Err ValueError.
Proof.
  eexists. split; [reflexivity|].
  apply common_kernel_without_bias_raises.
  - split; [reflexivity | simpl; lia | simpl; lia
           | reflexivity | reflexivity | reflexivity].
  - reflexivity.
  - reflexivity.
Defined.

Section Claim8.
Context {T : Type} `{Scalar T}.

(** C8. On a built operator, a forward call whose input has a channel
    dimension other than the channel count recorded by [build] raises: the
    framework entry point rejects it against the stored input
    specification, and [call] itself fails as well; neither returns a
    tensor. *)
Theorem channel_mismatch_raises (self : DepthwiseConv1D T) (x : Tensor3 T)
    (B L C : nat) :
  Built self ->
  blc (data_format (config self)) (dim3 x) = (B, L, C) ->
  C <> channels self ->
  Layer_call self x = Err ValueError /\ call self x = Err ValueError.
Proof.
  intros HB D Hne. split.
  - unfold Layer_call. rewrite (input_check self x B L C HB D).
    destruct (Nat.eqb_spec C (channels self)); [contradiction|reflexivity].
  - now apply (call_channel_mismatch self x B L C).
Qed.

End Claim8.

(** C8 on a concrete operator built for 3 channels and fed 4. *)
Lemma channel_mismatch_raises_witness :
  exists self,
    build (Samples.layer 3 1 valid false 1 None None true)
      [None; Some 10; Some 3] = Ok self /\
    Layer_call self (Samples.signal 2 10 4) = Err ValueError /\
    call self (Samples.signal 2 10 4) = Err ValueError.
Proof.
  eexists. split; [reflexivity|].
  apply (channel_mismatch_raises _ _ 2 10 4).
  - split; [reflexivity | simpl; lia | simpl; lia | reflexivity
           | eexists; split; reflexivity | reflexivity].
  - reflexivity.
  - simpl. lia.
Defined.

(** ** Cells of the forward result *)

Section Cells.
Context {T : Type} `{Scalar T}.

Lemma cell_at_tab_blc fmt B L C (g : nat -> nat -> nat -> T) b t o :
  b < B -> t < L -> o < C ->
  cell_at fmt (tab_blc fmt (B, L, C) g) b t o = g b t o.
Proof.
  intros Hb Ht Ho. destruct fmt; cbn [tab_blc cell_at];
    now rewrite get3_tab3.
Qed.

Lemma blc_tab_blc fmt d (g : nat -> nat -> nat -> T) :
  blc fmt (dim3 (tab_blc fmt d g)) = d.
Proof.
  destruct d as [[B L] C].
  destruct fmt; cbn [tab_blc]; rewrite dim3_tab3; reflexivity.
Qed.

Lemma blc_tmap3 fmt (f : T -> T) (y : Tensor3 T) :
  blc fmt (dim3 (tmap3 f y)) = blc fmt (dim3 y).
Proof. unfold tmap3. now rewrite dim3_tab3. Qed.

Lemma cell_at_tmap3 fmt (f : T -> T) (y : Tensor3 T) B L C b t o :
  blc fmt (dim3 y) = (B, L, C) -> b < B -> t < L -> o < C ->
  cell_at fmt (tmap3 f y) b t o = f (cell_at fmt y b t o).
Proof.
  intros D Hb Ht Ho. unfold tmap3.
  destruct (dim3 y) as [[d0 d1] d2].
  destruct fmt; cbn [blc] in D; inversion D; subst; cbn [cell_at];
    now rewrite get3_tab3.
Qed.

Lemma forward_linear_dims (self : DepthwiseConv1D T) (x : Tensor3 T) B L C :
  blc (data_format (config self)) (dim3 x) = (B, L, C) ->
  blc (data_format (config self)) (dim3 (forward_linear self x)) =
  (B, new_length (padding (config self)) (kernel_size_arg (config self))
        (strides_arg (config self)) L,
   C * depth_multiplier (config self)).
Proof. intros D. unfold forward_linear. rewrite D. apply blc_tab_blc. Qed.

Lemma forward_spec_dims (self : DepthwiseConv1D T) (x : Tensor3 T) f B L C :
  Elementwise (activation (config self)) f ->
  blc (data_format (config self)) (dim3 x) = (B, L, C) ->
  blc (data_format (config self)) (dim3 (forward_spec self x)) =
  (B, new_length (padding (config self)) (kernel_size_arg (config self))
        (strides_arg (config self)) L,
   C * depth_multiplier (config self)).
Proof.
  intros E D. unfold forward_spec, Elementwise in *.
  destruct (activation (config self)).
  - rewrite E, blc_tmap3. now apply forward_linear_dims.
  - now apply forward_linear_dims.
Qed.

(** Every cell of the forward result is the activation of the window sum
    (plus bias) of its own channel. *)
Lemma forward_spec_cell (self : DepthwiseConv1D T) (x : Tensor3 T) f
    B L C b t o :
  Elementwise (activation (config self)) f ->
  blc (data_format (config self)) (dim3 x) = (B, L, C) ->
  b < B ->
  t < new_length (padding (config self)) (kernel_size_arg (config self))
        (strides_arg (config self)) L ->
  o < C * depth_multiplier (config self) ->
  cell_at (data_format (config self)) (forward_spec self x) b t o =
  f (conv_value self x b t (o / depth_multiplier (config self))
       (o mod depth_multiplier (config self))).
Proof.
  intros E D Hb Ht Ho.
  assert (CL : cell_at (data_format (config self)) (forward_linear self x) b t o =
               conv_value self x b t (o / depth_multiplier (config self))
                 (o mod depth_multiplier (config self))).
  { unfold forward_linear. rewrite D. now rewrite cell_at_tab_blc. }
  unfold forward_spec, Elementwise in *.
  destruct (activation (config self)).
  - rewrite E.
    rewrite (cell_at_tmap3 _ f _ _ _ _ b t o (forward_linear_dims self x B L C D))
      by assumption.
    now rewrite CL.
  - now rewrite CL, E.
Qed.

Lemma channel_index c m M : m < M -> (c * M + m) / M = c /\ (c * M + m) mod M = m.
Proof.
  intros Hm. split.
  - rewrite Nat.div_add_l by lia. rewrite Nat.div_small by lia. lia.
  - rewrite Nat.add_comm, Nat.Div0.mod_add. now apply Nat.mod_small.
Qed.

Lemma channel_block o c M :
  0 < M -> o / M = c -> c * M <= o < (c + 1) * M.
Proof.
  intros HM E. pose proof (Nat.div_mod_eq o M) as Q.
  pose proof (Nat.mod_upper_bound o M) as U. rewrite E in Q. nia.
Qed.

End Cells.

Section Claim3.
Context {T : Type} `{Scalar T}.

(** C3, as amended. Take two built operators with per-channel kernels
    ([common_kernel = false]) whose activation is none or elementwise,
    that share configuration and channel count and whose weights differ
    only in the kernel slice of channel [c] and in the bias entries
    [c * M .. (c + 1) * M - 1]. On every input the two forward results
    agree outside the output channels [[c * M, (c + 1) * M)]: cell for
    cell when the input conforms, in which case both calls succeed, and as
    the same error otherwise. *)
Theorem channel_independence (self1 self2 : DepthwiseConv1D T) (x : Tensor3 T)
    (f : T -> T) (c : nat) :
  Built self1 -> Built self2 ->
  config self2 = config self1 ->
  channels self2 = channels self1 ->
  common_kernel (config self1) = false ->
  Elementwise (activation (config self1)) f ->
  (forall k c' m, c' <> c ->
     get3 (depthwise_kernel self1) k c' m = get3 (depthwise_kernel self2) k c' m) ->
  (forall o, ~ (c * depth_multiplier (config self1) <= o
                < (c + 1) * depth_multiplier (config self1)) ->
     bias_entry self1 o = bias_entry self2 o) ->
  agree_outside (data_format (config self1))
    (c * depth_multiplier (config self1))
    ((c + 1) * depth_multiplier (config self1))
    (call self1 x) (call self2 x) /\
  (Conforming self1 x ->
   exists y1 y2, call self1 x = Ok y1 /\ call self2 x = Ok y2).
Proof.
  intros HB1 HB2 EC ECh CK E HKer HBias.
  assert (HC12 : Conforming self1 x -> Conforming self2 x).
  { unfold Conforming. now rewrite EC, ECh. }
  assert (HC21 : Conforming self2 x -> Conforming self1 x).
  { unfold Conforming. now rewrite EC, ECh. }
  destruct (Conforming_dec self1 x) as [HC|HN].
  2:{ rewrite !call_not_conforming by auto. split; [reflexivity|tauto]. }
  assert (N1 : common_kernel (config self1) = true ->
               use_bias (config self1) = true) by (rewrite CK; discriminate).
  assert (N2 : common_kernel (config self2) = true ->
               use_bias (config self2) = true) by (rewrite EC, CK; discriminate).
  rewrite !call_forward_spec by auto.
  split; [|intros _; eauto].
  destruct (blc (data_format (config self1)) (dim3 x)) as [[B L] C] eqn:D.
  assert (E2 : Elementwise (activation (config self2)) f) by now rewrite EC.
  assert (D2 : blc (data_format (config self2)) (dim3 x) = (B, L, C))
    by now rewrite EC.
  pose proof (forward_spec_dims self1 x f B L C E D) as Dy1.
  pose proof (forward_spec_dims self2 x f B L C E2 D2) as Dy2.
  rewrite EC in Dy2.
  cbn [agree_outside]. rewrite Dy1, Dy2. cbn [fst snd].
  split; [reflexivity|].
  intros b t o Hb Ht Ho Hout.
  rewrite (forward_spec_cell self1 x f B L C) by assumption.
  pose proof (forward_spec_cell self2 x f B L C b t o E2 D2 Hb) as C2.
  rewrite EC in C2. rewrite C2 by assumption. f_equal.
  assert (HM : 0 < depth_multiplier (config self1)) by lia.
  assert (Hch : o / depth_multiplier (config self1) <> c).
  { intros Q. apply Hout. now apply channel_block. }
  unfold conv_value. rewrite EC, CK.
  assert (S12 : forall g,
            sum_n (kernel_size_arg (config self1)) (fun k =>
              smul (g k) (get3 (depthwise_kernel self1) k
                            (o / depth_multiplier (config self1))
                            (o mod depth_multiplier (config self1)))) =
            sum_n (kernel_size_arg (config self1)) (fun k =>
              smul (g k) (get3 (depthwise_kernel self2) k
                            (o / depth_multiplier (config self1))
                            (o mod depth_multiplier (config self1))))).
  { intros g. apply sum_n_ext. intros k _. now rewrite HKer. }
  rewrite S12.
  destruct (use_bias (config self1)); [|reflexivity].
  f_equal. rewrite channel_join.
  apply (HBias o Hout).
Qed.

End Claim3.

(** C3 on a concrete pair: the second operator has channel 1 of the kernel
    and its bias entry replaced; channels 0 and 2 of the output agree. *)
Lemma channel_independence_witness :
  exists self1 self2 y1 y2,
    build (Samples.layer 2 1 valid false 1 None None true)
      [None; Some 4; Some 3] = Ok self1 /\
    call self1 (Samples.signal 1 4 3) = Ok y1 /\
    call self2 (Samples.signal 1 4 3) = Ok y2 /\
    get3 y1 0 0 1 <> get3 y2 0 0 1 /\
    forall b t o, b < 1 -> t < 3 -> o < 3 -> ~ (1 <= o < 2) ->
      get3 y1 b t o = get3 y2 b t o.
Proof.
  pose (s1 := {| config := Samples.layer 2 1 valid false 1 None None true;
                 channels := 3;
                 depthwise_kernel :=
                   tab3 (2, 3, 1) (fun k c m => Z.of_nat (1 + k + 10 * c + 100 * m));
                 bias := Some [1000; 2000; 3000]%Z;
                 input_spec := {| ndim := 3; axes := [((-1)%Z, 3)] |};
                 built := true |}).
  pose (s2 := {| config := Samples.layer 2 1 valid false 1 None None true;
                 channels := 3;
                 depthwise_kernel :=
                   tab3 (2, 3, 1) (fun k c m =>
                     if c =? 1 then 5%Z else Z.of_nat (1 + k + 10 * c + 100 * m));
                 bias := Some [1000; 7; 3000]%Z;
                 input_spec := {| ndim := 3; axes := [((-1)%Z, 3)] |};
                 built := true |}).
  destruct (channel_independence s1 s2 (Samples.signal 1 4 3) (fun v => v) 1)
    as [Hag Hok].
  - split; [reflexivity | simpl; lia | simpl; lia | reflexivity
           | eexists; split; reflexivity | reflexivity].
  - split; [reflexivity | simpl; lia | simpl; lia | reflexivity
           | eexists; split; reflexivity | reflexivity].
  - reflexivity.
  - reflexivity.
  - reflexivity.
  - simpl. reflexivity.
  - intros k c' m Hc'. unfold s1, s2. cbn [depthwise_kernel].
    destruct k as [|[|k]], c' as [|[|[|c']]], m as [|m];
      try reflexivity; contradiction.
  - intros o Ho. unfold bias_entry, s1, s2. cbn [bias get1].
    destruct o as [|[|[|o]]]; try reflexivity. simpl in Ho. lia.
  - destruct Hok as (y1 & y2 & E1 & E2); [vm_compute; lia|].
    rewrite E1, E2 in Hag. destruct Hag as [_ Hag].
    exists s1, s2, y1, y2.
    split; [reflexivity|]. split; [exact E1|]. split; [exact E2|].
    vm_compute in E1, E2. inversion E1; inversion E2; subst.
    split.
    + vm_compute. discriminate.
    + intros b t o Hb Ht Ho Hn. apply (Hag b t o); simpl; auto.
Defined.

(** C3 as stated fails for an activation that mixes channels. The two
    operators of [Mixing] are built, share configuration and channel count
    and differ only in the kernel slice and the bias entry of channel 1;
    their activation sums the last axis, the channels. Both calls succeed,
    and the outputs differ in channel 0, outside [[1, 2)]. *)
Lemma channel_mixing_counterexample :
  build Mixing.per_channel [None; Some 4; Some 3] = Ok Mixing.original /\
  Built Mixing.original /\ Built Mixing.perturbed /\
  config Mixing.perturbed = config Mixing.original /\
  channels Mixing.perturbed = channels Mixing.original /\
  common_kernel (config Mixing.original) = false /\
  (forall k c' m, c' <> 1 ->
     get3 (depthwise_kernel Mixing.original) k c' m =
     get3 (depthwise_kernel Mixing.perturbed) k c' m) /\
  (forall o, ~ (1 * 1 <= o < (1 + 1) * 1) ->
     bias_entry Mixing.original o = bias_entry Mixing.perturbed o) /\
  Conforming Mixing.original (Samples.signal 1 4 3) /\
  rmap (fun y => get3 y 0 0 0) (call Mixing.original (Samples.signal 1 4 3)) =
    Ok 6868%Z /\
  rmap (fun y => get3 y 0 0 0) (call Mixing.perturbed (Samples.signal 1 4 3)) =
    Ok 4764%Z /\
  ~ agree_outside channels_last 1 2
      (call Mixing.original (Samples.signal 1 4 3))
      (call Mixing.perturbed (Samples.signal 1 4 3)).
Proof.
  split; [reflexivity|].
  split; [split; [reflexivity | simpl; lia | simpl; lia | reflexivity
                 | eexists; split; reflexivity | reflexivity]|].
  split; [split; [reflexivity | simpl; lia | simpl; lia | reflexivity
                 | eexists; split; reflexivity | reflexivity]|].
  split; [reflexivity|]. split; [reflexivity|]. split; [reflexivity|].
  split.
  { intros k c' m Hc'.
    destruct k as [|[|k]], c' as [|[|[|c']]], m as [|m];
      try reflexivity; contradiction. }
  split.
  { intros o Ho. destruct o as [|[|[|o]]]; try reflexivity. lia. }
  split; [vm_compute; lia|].
  split; [reflexivity|]. split; [reflexivity|].
  destruct (call Mixing.original (Samples.signal 1 4 3)) as [y1|e1] eqn:E1;
    [|vm_compute in E1; discriminate].
  destruct (call Mixing.perturbed (Samples.signal 1 4 3)) as [y2|e2] eqn:E2;
    [|vm_compute in E2; discriminate].
  vm_compute in E1, E2. inversion E1; inversion E2; subst.
  intros [_ A]. specialize (A 0 0 0).
  cbn [blc dim3 fst snd] in A.
  assert (Q : cell_at channels_last
                {| dim3 := (1, 3, 3);
                   elems3 := [[[6868; 6868; 6868]; [6937; 6937; 6937];
                               [7006; 7006; 7006]]]%Z |} 0 0 0 =
              cell_at channels_last
                {| dim3 := (1, 3, 3);
                   elems3 := [[[4764; 4764; 4764]; [4820; 4820; 4820];
                               [4876; 4876; 4876]]]%Z |} 0 0 0)
    by (apply A; lia).
  vm_compute in Q. discriminate.
Qed.

Section Claim5.
Context {T : Type} `{Scalar T}.



End Claim5.



(** ** Consequences of the forward theorem *)

Section ForwardConsequences.
Context {T : Type} `{Scalar T}.

(** The contract of the forward pass, cell by cell, wherever the bias can
    be tiled: at batch [b], position [t] and output channel [c * M + m] the
    result holds the activation of the window sum of channel [c] with
    filter [m], plus the bias entry when the layer has a bias. *)
Lemma call_cell (self : DepthwiseConv1D T) (x : Tensor3 T) (f : T -> T)
    (B L C b t c m : nat) :
  Built self ->
  (common_kernel (config self) = true -> use_bias (config self) = true) ->
  Elementwise (activation (config self)) f ->
  blc (data_format (config self)) (dim3 x) = (B, L, C) ->
  Conforming self x ->
  b < B ->
  t < new_length (padding (config self)) (kernel_size_arg (config self))
        (strides_arg (config self)) L ->
  c < C -> m < depth_multiplier (config self) ->
  exists y,
    call self x = Ok y /\
    blc (data_format (config self)) (dim3 y) =
      (B, new_length (padding (config self)) (kernel_size_arg (config self))
            (strides_arg (config self)) L,
       C * depth_multiplier (config self)) /\
    cell_at (data_format (config self)) y b t
      (c * depth_multiplier (config self) + m) =
    f (conv_value self x b t c m).
Proof.
  intros HB KS E D HC Hb Ht Hc Hm.
  exists (forward_spec self x).
  split; [now apply call_forward_spec|].
  split; [now apply (forward_spec_dims self x f)|].
  rewrite (forward_spec_cell self x f B L C) by (auto; nia).
  destruct (channel_index c m _ Hm) as [-> ->]. reflexivity.
Qed.

(** With ['same'] padding and stride 1 the output is as long as the
    input, wherever the bias can be tiled. *)
Lemma same_padding_keeps_length (self : DepthwiseConv1D T) (x : Tensor3 T)
    (f : T -> T) (B L C : nat) :
  Built self ->
  (common_kernel (config self) = true -> use_bias (config self) = true) ->
  Elementwise (activation (config self)) f ->
  padding (config self) = same ->
  strides_arg (config self) = 1 ->
  blc (data_format (config self)) (dim3 x) = (B, L, C) ->
  C = channels self ->
  exists y,
    call self x = Ok y /\
    blc (data_format (config self)) (dim3 y) =
      (B, L, C * depth_multiplier (config self)).
Proof.
  intros HB KS E PS S1 D HC.
  exists (forward_spec self x). split.
  - apply call_forward_spec; auto.
    unfold Conforming. rewrite D, PS. now split.
  - rewrite (forward_spec_dims self x f B L C E D), PS, S1.
    cbn [new_length]. replace (L + 1 - 1) with L by lia.
    now rewrite Nat.div_1_r.
Qed.

(** The front padding of ['same'] mode at stride 1 is [(K - 1) / 2]: the
    odd zero, when [K] is even, goes behind the input. *)
Lemma left_pad_same_stride1 K L :
  0 < L -> left_pad same K 1 L = (K - 1) / 2.
Proof.
  intros HL. unfold left_pad, new_length.
  replace (L + 1 - 1) with L by lia. rewrite Nat.div_1_r.
  f_equal. lia.
Qed.

Lemma Built_replicated (self : DepthwiseConv1D T) :
  Built self -> common_kernel (config self) = true -> Built (replicated self).
Proof.
  intros [F HK HS Dk Hb Sp] CK. rewrite CK in *.
  split; cbn [replicated config channels depthwise_kernel bias input_spec built
              set_common_kernel kernel_size_arg strides_arg common_kernel
              depth_multiplier use_bias]; auto.
  - unfold tile3. rewrite Dk, dim3_tab3. f_equal; [f_equal|]; lia.
  - destruct (use_bias (config self)).
    + destruct Hb as (bv & -> & Lb). eexists. split; [reflexivity|].
      rewrite length_tabulate. lia.
    + now rewrite Hb.
Qed.

(** A common-kernel operator with a bias computes what the per-channel
    operator holding [C_in] copies of its weights computes. *)
Lemma common_kernel_equals_replicated (self : DepthwiseConv1D T) (x : Tensor3 T) :
  Built self ->
  common_kernel (config self) = true ->
  use_bias (config self) = true ->
  Conforming self x ->
  call self x = call (replicated self) x.
Proof.
  intros HB CK UB HC.
  pose proof (Built_replicated self HB CK) as HBr.
  rewrite (call_forward_spec self x) by auto.
  rewrite (call_forward_spec (replicated self) x); auto.
  f_equal. unfold forward_spec.
  change (activation (config (replicated self))) with (activation (config self)).
  assert (FL : forward_linear self x = forward_linear (replicated self) x).
  { unfold forward_linear.
    change (data_format (config (replicated self))) with (data_format (config self)).
    change (padding (config (replicated self))) with (padding (config self)).
    change (kernel_size_arg (config (replicated self)))
      with (kernel_size_arg (config self)).
    change (strides_arg (config (replicated self))) with (strides_arg (config self)).
    change (depth_multiplier (config (replicated self)))
      with (depth_multiplier (config self)).
    unfold Conforming in HC.
    destruct (blc (data_format (config self)) (dim3 x)) as [[B L] C].
    destruct HC as [-> _].
    assert (CV : forall b t o, o < channels self * depth_multiplier (config self) ->
              conv_value self x b t (o / depth_multiplier (config self))
                (o mod depth_multiplier (config self)) =
              conv_value (replicated self) x b t
                (o / depth_multiplier (config self))
                (o mod depth_multiplier (config self))).
    { intros b t o Ho.
      destruct (channel_split o _ _ Ho) as [Hc Hm].
      unfold conv_value.
      change (data_format (config (replicated self)))
        with (data_format (config self)).
      cbn [replicated config set_common_kernel common_kernel padding
           kernel_size_arg strides_arg depth_multiplier use_bias
           depthwise_kernel bias].
      rewrite CK, UB.
      pose proof (built_bias _ HB) as Hb. rewrite UB, CK in Hb.
      destruct Hb as (bv & Eb & Lb). rewrite Eb.
      f_equal.
      - apply sum_n_ext. intros k Hk. f_equal.
        unfold tile3. rewrite (built_kernel _ HB), CK.
        rewrite get3_tab3 by lia.
        rewrite (Nat.mod_small k), (Nat.mod_small (o mod _)), Nat.mod_1_r by lia.
        reflexivity.
      - unfold get1 at 2. rewrite nth_tabulate.
        + rewrite Lb, Nat.mul_1_l, channel_join. reflexivity.
        + rewrite Lb, channel_join. lia. }
    destruct (data_format (config self)); cbn [tab_blc];
      apply tab3_ext; intros; apply CV; assumption. }
  now rewrite FL.
Qed.

End ForwardConsequences.

(** ** Shape inference *)

Section ShapeInference.
Context {T : Type}.


(** C2. Shape inference is meant to return the shape the forward pass
    produces, but [compute_output_shape] hands the tuples
    [self.kernel_size] and [self.strides] to [conv_output_length], which
    subtracts 1 from the filter size: on every input shape whose length and
    channel count are known it raises [TypeError] and returns no shape. *)
Theorem compute_output_shape_raises (cfg : Config T) (n : pyval) (d1 d2 : Z) :
  compute_output_shape cfg [n; PyInt d1; PyInt d2] = Err TypeError.
Proof.
  unfold compute_output_shape. destruct (data_format cfg); reflexivity.
Qed.

End ShapeInference.

(** ** Configuration serialization *)

Section Serialization.
Context {T : Type}.

(** C9. [get_config] is meant to return the configuration without the
    standard kernel initializer, regularizer and constraint, but it names
    the class [DepthwiseConv2D], which the module never binds: every call
    raises [NameError] and returns no configuration. *)
Theorem get_config_raises (cfg : Config T) : get_config cfg = Err NameError.
Proof. reflexivity. Qed.

(** Past that name the method does what it is meant to: applied to the base
    configuration, the rest of its body drops the four standard entries and
    adds the depthwise ones. The [common_kernel] flag is not written. *)
Lemma get_config_rest_entries (cfg : Config T) :
  exists d,
    get_config_rest cfg (Conv_get_config cfg) = Ok d /\
    d !! "filters"%string = None /\
    d !! "kernel_initializer"%string = None /\
    d !! "kernel_regularizer"%string = None /\
    d !! "kernel_constraint"%string = None /\
    d !! "depth_multiplier"%string =
      Some (PyInt (Z.of_nat (depth_multiplier cfg))) /\
    d !! "depthwise_initializer"%string =
      Some (PyStr (init_name (depthwise_initializer cfg))) /\
    d !! "depthwise_regularizer"%string =
      Some (serialize_opt (depthwise_regularizer cfg)) /\
    d !! "depthwise_constraint"%string =
      Some (serialize_opt (depthwise_constraint cfg)) /\
    d !! "kernel_size"%string =
      Some (PyTuple [Z.of_nat (kernel_size_arg cfg)]) /\
    d !! "common_kernel"%string = None.
Proof.
  unfold get_config_rest, Conv_get_config, Layer_get_config, dict_pop.
  eexists. split.
  - repeat (rewrite ?lookup_insert_eq, ?lookup_delete_ne, ?lookup_insert_ne
              by discriminate; cbn [rbind]).
    reflexivity.
  - repeat split;
      repeat first
        [ rewrite lookup_insert_eq | rewrite lookup_delete_eq
        | rewrite lookup_insert_ne by discriminate
        | rewrite lookup_delete_ne by discriminate
        | rewrite lookup_empty ];
      reflexivity.
Qed.

End Serialization.

(** ** The common kernel without a bias *)

(** C1. The forward contract promises, for a built common-kernel operator
    without bias, the plain window sum in every cell: 14 at batch 0,
    position 0, channel 0 here. The code raises instead, in the tiling of
    the absent bias, and returns no tensor. *)
Theorem forward_contract_fails_without_bias :
  exists self,
    build (Samples.layer 3 1 valid true 2 None None false)
      [None; Some 10; Some 3] = Ok self /\
    Built self /\
    Conforming self (Samples.signal 2 10 3) /\
    conv_value self (Samples.signal 2 10 3) 0 0 0 0 = 14%Z /\
    call self (Samples.signal 2 10 3) = Err ValueError.
Proof.
  eexists. split; [reflexivity|].
  split.
  { split; [reflexivity | simpl; lia | simpl; lia
           | reflexivity | reflexivity | reflexivity]. }
  split; [vm_compute; lia|].
  split; reflexivity.
Qed.

(** C4. A common-kernel operator without bias and the per-channel operator
    holding its filter bank once per channel are meant to agree; on this
    input the second returns its output and the first raises. *)
Theorem common_kernel_disagrees_without_bias :
  exists self,
    build (Samples.layer 2 1 valid true 1 None None false)
      [None; Some 4; Some 2] = Ok self /\
    Built self /\
    dim3 (depthwise_kernel self) = (2, 1, 1) /\
    bias self = None /\
    call (replicated self) (Samples.signal 1 4 2) =
      Ok {| dim3 := (1, 3, 2);
            elems3 := [[[5; 26]; [8; 29]; [11; 32]]]%Z |} /\
    call self (Samples.signal 1 4 2) = Err ValueError.
Proof.
  eexists. split; [reflexivity|].
  split.
  { split; [reflexivity | simpl; lia | simpl; lia
           | reflexivity | reflexivity | reflexivity]. }
  repeat split.
Qed.

(** C6. With ['same'] padding and stride 1 the output is meant to be as
    long as the input, 10 here; the common-kernel operator without bias
    raises and has no output. *)
Theorem same_padding_length_fails_without_bias :
  exists self,
    build (Samples.layer 3 1 same true 1 None None false)
      [None; Some 10; Some 3] = Ok self /\
    Built self /\
    padding (config self) = same /\
    strides_arg (config self) = 1 /\
    dim3 (Samples.signal 2 10 3) = (2, 10, 3) /\
    call self (Samples.signal 2 10 3) = Err ValueError.
Proof.
  eexists. split; [reflexivity|].
  split.
  { split; [reflexivity | simpl; lia | simpl; lia
           | reflexivity | reflexivity | reflexivity]. }
  repeat split.
Qed.

(** ** The scenarios of the specification *)

Example scenario_same_stride1 :
  rmap dim3 (l <- build (Samples.layer 3 1 same false 1 None None true)
                    [None; Some 10; Some 3] ;;
             call l (Samples.signal 2 10 3)) = Ok (2, 10, 3).
Proof. reflexivity. Qed.

Example scenario_same_multiplier2 :
  rmap dim3 (l <- build (Samples.layer 3 1 same false 2 None None true)
                    [None; Some 10; Some 3] ;;
             call l (Samples.signal 2 10 3)) = Ok (2, 10, 6).
Proof. reflexivity. Qed.

Example scenario_valid_stride2 :
  rmap dim3 (l <- build (Samples.layer 3 2 valid false 1 None None true)
                    [None; Some 10; Some 3] ;;
             call l (Samples.signal 2 10 3)) = Ok (2, 4, 3).
Proof. reflexivity. Qed.

Example scenario_causal :
  rmap dim3 (l <- build (Samples.layer 4 1 causal false 1 None None true)
                    [None; Some 10; Some 3] ;;
             call l (Samples.signal 2 10 3)) = Ok (2, 10, 3).
Proof. reflexivity. Qed.

Example scenario_channels_first :
  rmap dim3 (l <- build (Samples.layer 4 1 causal false 1 (Some channels_first)
                           (Some Samples.negate) true)
                    [None; Some 3; Some 10] ;;
             call l (tab3 (2, 3, 10) (fun b c t => Z.of_nat (b + c + t)))) =
  Ok (2, 3, 10).
Proof. reflexivity. Qed.

Example scenario_shape_inference :
  compute_output_shape (Samples.layer 3 2 valid false 1 None None true)
    [PyInt 2; PyInt 10; PyInt 3] = Err TypeError.
Proof. reflexivity. Qed.

(** * Further properties of the forward pass *)

Section ForwardProperties.
Context {T : Type} `{Scalar T}.



(** X4. The input specification that [build] stores lets every input
    with the recorded channel count through: on a built operator and such
    an input, calling through the framework's input check returns exactly
    what [call] returns. *)
Theorem input_check_passes_recorded_channels (self : DepthwiseConv1D T)
    (x : Tensor3 T) (B L C : nat) :
  Built self ->
  blc (data_format (config self)) (dim3 x) = (B, L, C) ->
  C = channels self ->
  Layer_call self x = call self x.
Proof.
  intros HB D E. unfold Layer_call.
  rewrite (input_check self x B L C HB D).
  destruct (Nat.eqb_spec C (channels self)) as [_|N]; [reflexivity|].
  contradiction.
Qed.

End ForwardProperties.

Ltac sample_built :=
  split;
  [ reflexivity | simpl; lia | simpl; lia | reflexivity
  | first [ eexists; split; reflexivity | reflexivity ] | reflexivity ].



(** X4 on a concrete operator and an input of its channel count. *)
Lemma input_check_passes_recorded_channels_witness :
  Layer_call (Fresh.operator (Samples.layer 3 1 same false 1 None None true) 3)
    (Samples.signal 2 10 3) =
  call (Fresh.operator (Samples.layer 3 1 same false 1 None None true) 3)
    (Samples.signal 2 10 3).
Proof.
  apply (input_check_passes_recorded_channels _ _ 2 10 3);
    [sample_built | reflexivity | reflexivity].
Defined.

Section MoreForwardProperties.
Context {T : Type} `{Scalar T}.

(** X5. Sharing one filter bank is the same as storing it once per
    channel. Take a built common-kernel operator with a bias and any built
    per-channel operator with the same configuration otherwise and the same
    channel count, whose kernel holds at every channel [c] the common
    filter bank ([kernel_r[k, c, m] = kernel[k, 0, m]]) and whose bias holds
    at [c * M + m] the common bias entry [m]. On every input the two
    return the same tensor or the same error. *)
Theorem common_kernel_matches_stored_copies (self self_r : DepthwiseConv1D T)
    (x : Tensor3 T) :
  Built self -> Built self_r ->
  common_kernel (config self) = true ->
  use_bias (config self) = true ->
  config self_r = set_common_kernel false (config self) ->
  channels self_r = channels self ->
  (forall k c m,
     k < kernel_size_arg (config self) -> c < channels self ->
     m < depth_multiplier (config self) ->
     get3 (depthwise_kernel self_r) k c m = get3 (depthwise_kernel self) k 0 m) ->
  (forall c m,
     c < channels self -> m < depth_multiplier (config self) ->
     bias_entry self_r (c * depth_multiplier (config self) + m) =
     bias_entry self m) ->
  call self x = call self_r x.
Proof.
  intros HB HBr CK UB EC ECh HKer HBias.
  assert (CF : Conforming self_r x <-> Conforming self x).
  { unfold Conforming. rewrite EC, ECh. reflexivity. }
  destruct (Conforming_dec self x) as [HC|HN].
  2:{ rewrite (call_not_conforming self x HB HN).
      rewrite call_not_conforming by tauto. reflexivity. }
  rewrite (call_forward_spec self x) by auto.
  rewrite (call_forward_spec self_r x)
    by (try tauto; rewrite EC; discriminate).
  f_equal. unfold forward_spec. rewrite EC.
  change (activation (set_common_kernel false (config self)))
    with (activation (config self)).
  assert (FL : forward_linear self x = forward_linear self_r x).
  { unfold forward_linear. rewrite EC.
    change (data_format (set_common_kernel false (config self)))
      with (data_format (config self)).
    cbn [set_common_kernel padding kernel_size_arg strides_arg depth_multiplier].
    unfold Conforming in HC.
    destruct (blc (data_format (config self)) (dim3 x)) as [[B L] C].
    destruct HC as [-> _].
    assert (CV : forall b t o, o < channels self * depth_multiplier (config self) ->
              conv_value self x b t (o / depth_multiplier (config self))
                (o mod depth_multiplier (config self)) =
              conv_value self_r x b t (o / depth_multiplier (config self))
                (o mod depth_multiplier (config self))).
    { intros b t o Ho.
      destruct (channel_split o _ _ Ho) as [Hc Hm].
      pose proof (HBias _ _ Hc Hm) as HBo. unfold bias_entry in HBo.
      unfold conv_value. rewrite EC.
      change (data_format (set_common_kernel false (config self)))
        with (data_format (config self)).
      cbn [set_common_kernel padding kernel_size_arg strides_arg
           depth_multiplier common_kernel use_bias].
      rewrite CK, UB. rewrite HBo. f_equal.
      apply sum_n_ext. intros k Hk. f_equal. symmetry. now apply HKer. }
    destruct (data_format (config self)); cbn [tab_blc];
      apply tab3_ext; intros; apply CV; assumption. }
  now rewrite FL.
Qed.

(** X6. The activation is the last step of [call] and sees the whole
    output: an operator with activation [a] returns what the same operator
    without activation returns, passed through [a]; errors pass unchanged.
    This holds for every activation, elementwise or not. *)
Theorem activation_is_applied_last (self : DepthwiseConv1D T) (x : Tensor3 T)
    (a : Activation T) :
  activation (config self) = Some a ->
  call self x = rmap (act_fn a) (call (without_activation self) x).
Proof.
  intros HA. unfold call. cbv zeta. rewrite HA.
  cbn [without_activation config set_activation activation padding
       common_kernel use_bias channels depthwise_kernel bias].
  change (data_format (set_activation None (config self)))
    with (data_format (config self)).
  change (strides (set_activation None (config self)))
    with (strides (config self)).
  change (_compute_causal_padding (set_activation None (config self)))
    with (_compute_causal_padding (config self)).
  repeat match goal with
         | |- rbind ?m _ = rmap _ (rbind ?m _) =>
             destruct m; cbn [rbind rmap]; [|reflexivity]
         end.
  reflexivity.
Qed.


End MoreForwardProperties.

(** X5 on a concrete common-kernel operator and the per-channel operator
    whose weights are written out channel by channel. *)
Lemma common_kernel_matches_stored_copies_witness :
  call (Fresh.operator (Samples.layer 2 2 same true 1 None None true) 2)
    (Samples.signal 2 7 2) =
  call {| config := Samples.layer 2 2 same false 1 None None true;
          channels := 2;
          depthwise_kernel :=
            {| dim3 := (2, 2, 1); elems3 := [[[1]; [1]]; [[2]; [2]]]%Z |};
          bias := Some [1000; 1000]%Z;
          input_spec := {| ndim := 3; axes := [((-1)%Z, 2)] |};
          built := true |}
    (Samples.signal 2 7 2).
Proof.
  apply common_kernel_matches_stored_copies.
  - sample_built.
  - sample_built.
  - reflexivity.
  - reflexivity.
  - reflexivity.
  - reflexivity.
  - intros k c m Hk Hc Hm. simpl in Hk, Hc, Hm.
    destruct k as [|[|k]], c as [|[|c]], m as [|m]; try lia; reflexivity.
  - intros c m Hc Hm. simpl in Hc, Hm.
    destruct c as [|[|c]], m as [|m]; try lia; reflexivity.
Defined.

(** X6 on a concrete operator whose activation negates. *)
Lemma activation_is_applied_last_witness :
  call (Fresh.operator
          (Samples.layer 3 1 valid false 1 None (Some Samples.negate) true) 2)
    (Samples.signal 1 5 2) =
  rmap (tmap3 Z.opp)
    (call (without_activation
             (Fresh.operator
                (Samples.layer 3 1 valid false 1 None (Some Samples.negate) true) 2))
       (Samples.signal 1 5 2)).
Proof.
  apply (activation_is_applied_last _ _ Samples.negate). reflexivity.
Defined.


(** ** Layouts *)

Section Layouts.
Context {T : Type} `{Scalar T}.

Lemma dim3_swap_axes (x : Tensor3 T) a b c :
  dim3 x = (a, b, c) -> dim3 (swap_axes x) = (a, c, b).
Proof. intros D. unfold swap_axes. rewrite D. apply dim3_tab3. Qed.

Lemma get3_swap_axes (x : Tensor3 T) a b c i j k :
  dim3 x = (a, b, c) -> i < a -> j < c -> k < b ->
  get3 (swap_axes x) i j k = get3 x i k j.
Proof.
  intros D Hi Hj Hk. unfold swap_axes. rewrite D. now rewrite get3_tab3.
Qed.

Lemma swap_axes_tab3 a b c (g : nat -> nat -> nat -> T) :
  swap_axes (tab3 (a, b, c) g) = tab3 (a, c, b) (fun i j k => g i k j).
Proof.
  unfold swap_axes. rewrite dim3_tab3. apply tab3_ext.
  intros i j k Hi Hj Hk. now rewrite get3_tab3.
Qed.

Lemma swap_axes_tmap3 (f : T -> T) (y : Tensor3 T) :
  swap_axes (tmap3 f y) = tmap3 f (swap_axes y).
Proof.
  destruct (dim3 y) as [[a b] c] eqn:D.
  unfold tmap3 at 1. rewrite D, swap_axes_tab3.
  unfold tmap3. rewrite (dim3_swap_axes y a b c D).
  apply tab3_ext. intros i j k Hi Hj Hk.
  now rewrite (get3_swap_axes y a b c).
Qed.

Lemma Built_as_channels_first (self : DepthwiseConv1D T) :
  Built self -> Built (as_channels_first self).
Proof.
  intros [F HK HS Dk Hb Sp]. split; auto.
Qed.

Lemma forward_linear_channels_first (self : DepthwiseConv1D T) (x : Tensor3 T) :
  data_format (config self) = channels_last ->
  forward_linear (as_channels_first self) (swap_axes x) =
  swap_axes (forward_linear self x).
Proof.
  intros F. destruct (dim3 x) as [[B L] C] eqn:D.
  unfold forward_linear.
  change (data_format (config (as_channels_first self))) with channels_first.
  rewrite F, (dim3_swap_axes x B L C D), D.
  cbn [blc tab_blc]. rewrite swap_axes_tab3.
  change (padding (config (as_channels_first self))) with (padding (config self)).
  change (kernel_size_arg (config (as_channels_first self)))
    with (kernel_size_arg (config self)).
  change (strides_arg (config (as_channels_first self)))
    with (strides_arg (config self)).
  change (depth_multiplier (config (as_channels_first self)))
    with (depth_multiplier (config self)).
  apply tab3_ext. intros b o t Hb Ho Ht.
  destruct (channel_split o C _ Ho) as [Hc Hm].
  unfold conv_value.
  change (data_format (config (as_channels_first self))) with channels_first.
  rewrite F.
  cbn [as_channels_first config set_data_format padding kernel_size_arg
       strides_arg depth_multiplier common_kernel use_bias depthwise_kernel bias].
  assert (SUM : forall g : nat -> T,
            sum_n (kernel_size_arg (config self)) (fun k =>
              smul (input_padded channels_first (padding (config self))
                      (kernel_size_arg (config self)) (strides_arg (config self))
                      (swap_axes x) b (t * strides_arg (config self) + k)
                      (o / depth_multiplier (config self))) (g k)) =
            sum_n (kernel_size_arg (config self)) (fun k =>
              smul (input_padded channels_last (padding (config self))
                      (kernel_size_arg (config self)) (strides_arg (config self))
                      x b (t * strides_arg (config self) + k)
                      (o / depth_multiplier (config self))) (g k))).
  { intros g. apply sum_n_ext. intros k Hk. f_equal.
    unfold input_padded. rewrite (dim3_swap_axes x B L C D), D.
    cbn [blc fst snd cell_at].
    destruct (in_range _ L _) eqn:R; [|reflexivity].
    apply in_range_true in R.
    rewrite (get3_swap_axes x B L C) by (auto; lia). reflexivity. }
  rewrite SUM. reflexivity.
Qed.

(** X8. The reduction does not depend on the layout. For a built
    [channels_last] operator, the operator with the same weights reading
    [channels_first] inputs returns, on the input with its last two axes
    exchanged, the result with its last two axes exchanged, or the same
    error. The activation is none or elementwise. *)
Theorem channels_first_is_transposed_channels_last (self : DepthwiseConv1D T)
    (x : Tensor3 T) (f : T -> T) :
  Built self ->
  data_format (config self) = channels_last ->
  Elementwise (activation (config self)) f ->
  call (as_channels_first self) (swap_axes x) = rmap swap_axes (call self x).
Proof.
  intros HB F E.
  pose proof (Built_as_channels_first self HB) as HB'.
  destruct (dim3 x) as [[B L] C] eqn:D.
  assert (CF : Conforming (as_channels_first self) (swap_axes x) <->
               Conforming self x).
  { unfold Conforming.
    change (data_format (config (as_channels_first self))) with channels_first.
    rewrite F, (dim3_swap_axes x B L C D), D. cbn [blc]. reflexivity. }
  destruct (Conforming_dec self x) as [HC|HN].
  2:{ rewrite (call_not_conforming self x HB HN).
      rewrite call_not_conforming by tauto. reflexivity. }
  assert (KS : (common_kernel (config self) = true /\
                use_bias (config self) = false) \/
               (common_kernel (config self) = true ->
                use_bias (config self) = true)).
  { destruct (common_kernel (config self)), (use_bias (config self)); auto;
      right; discriminate. }
  destruct KS as [[CK UB]|KS].
  { assert (NB : bias self = None).
    { pose proof (built_bias _ HB) as Hb'. now rewrite UB in Hb'. }
    rewrite !call_tiles_missing_bias by assumption. reflexivity. }
  rewrite (call_forward_spec self x) by auto.
  rewrite (call_forward_spec (as_channels_first self) (swap_axes x))
    by (auto; tauto).
  cbn [rmap]. f_equal. unfold forward_spec.
  change (activation (config (as_channels_first self)))
    with (activation (config self)).
  rewrite (forward_linear_channels_first self x F).
  unfold Elementwise in E. destruct (activation (config self)); [|reflexivity].
  rewrite !E. symmetry. apply swap_axes_tmap3.
Qed.

End Layouts.

(** X8 on a concrete causal operator. *)
Lemma channels_first_is_transposed_channels_last_witness :
  call (as_channels_first
          (Fresh.operator
             (Samples.layer 3 2 causal false 2 None (Some Samples.negate) true) 3))
    (swap_axes (Samples.signal 2 10 3)) =
  rmap swap_axes
    (call (Fresh.operator
             (Samples.layer 3 2 causal false 2 None (Some Samples.negate) true) 3)
       (Samples.signal 2 10 3)).
Proof.
  apply (channels_first_is_transposed_channels_last _ _ Z.opp).
  - sample_built.
  - reflexivity.
  - simpl. reflexivity.
Defined.

(** ** ['same'] padding as explicit zeros *)

Section SamePadding.
Context {T : Type} `{Scalar T}.

Lemma side_pad_stage fmt (x : Tensor3 T) B L C front back :
  blc fmt (dim3 x) = (B, L, C) ->
  exists xp,
    pad x (side_padding fmt front back) = Ok xp /\
    blc fmt (dim3 xp) = (B, front + L + back, C) /\
    forall b q c, b < B -> c < C -> q < front + L + back ->
      cell_at fmt xp b q c =
      if in_range front L q then cell_at fmt x b (q - front) c else szero.
Proof.
  intros D. unfold pad, side_padding.
  assert (N : forall n, (Z.of_nat n <? 0)%Z = false)
    by (intros n; apply Z.ltb_ge; lia).
  destruct fmt; cbn [blc] in D;
    destruct (dim3 x) as [[d0 d1] d2]; inversion D; subst; clear D;
    cbn [existsb]; rewrite !N; change (0 <? 0)%Z with false; cbn [orb];
    rewrite !Nat2Z.id; change (Z.to_nat 0) with 0;
    eexists; (split; [reflexivity|]); rewrite dim3_tab3; cbn [blc cell_at];
    (split; [f_equal; [f_equal|]; lia|]);
    intros b q c Hb Hc Hq; rewrite get3_tab3 by lia;
    rewrite !in_range_zero by lia; cbn [andb];
    rewrite ?andb_true_r, ?Nat.sub_0_r; reflexivity.
Qed.

Lemma Built_with_padding (p : Padding) (self : DepthwiseConv1D T) :
  Built self -> Built (with_padding p self).
Proof. intros [F HK HS Dk Hb Sp]. split; auto. Qed.

(** X9. With ['same'] padding and stride 1, the operator is the
    ['valid']-mode operator applied to the input with [(K - 1) / 2] zeros
    put in front of the spatial axis and the remaining
    [K - 1 - (K - 1) / 2] behind it (the odd zero goes behind); this holds
    for every non-empty input, errors included. *)
Theorem same_stride1_is_padded_valid (self : DepthwiseConv1D T) (x : Tensor3 T)
    (B L C : nat) :
  Built self ->
  padding (config self) = same ->
  strides_arg (config self) = 1 ->
  blc (data_format (config self)) (dim3 x) = (B, L, C) ->
  0 < L ->
  call self x =
    (xp <- pad x (side_padding (data_format (config self))
                    ((kernel_size_arg (config self) - 1) / 2)
                    (kernel_size_arg (config self) - 1
                     - (kernel_size_arg (config self) - 1) / 2)) ;;
     call (with_padding valid self) xp).
Proof.
  intros HB PS S1 D HL.
  pose proof (built_K _ HB) as HK.
  set (K := kernel_size_arg (config self)) in *.
  assert (HF : (K - 1) / 2 <= K - 1) by (apply Nat.Div0.div_le_upper_bound; lia).
  destruct (side_pad_stage (data_format (config self)) x B L C
              ((K - 1) / 2) (K - 1 - (K - 1) / 2) D) as (xp & EP & DP & RP).
  rewrite EP. cbn [rbind].
  pose proof (Built_with_padding valid self HB) as HBv.
  assert (Dv : blc (data_format (config (with_padding valid self))) (dim3 xp) =
               (B, (K - 1) / 2 + L + (K - 1 - (K - 1) / 2), C)) by exact DP.
  destruct (Nat.eq_dec C (channels self)) as [EC|NC].
  2:{ rewrite (call_channel_mismatch self x B L C) by auto.
      symmetry. now apply (call_channel_mismatch (with_padding valid self) xp
                             B ((K - 1) / 2 + L + (K - 1 - (K - 1) / 2)) C). }
  assert (KS : (common_kernel (config self) = true /\
                use_bias (config self) = false) \/
               (common_kernel (config self) = true ->
                use_bias (config self) = true)).
  { destruct (common_kernel (config self)), (use_bias (config self)); auto;
      right; discriminate. }
  destruct KS as [[CK UB]|KS].
  { assert (NB : bias self = None).
    { pose proof (built_bias _ HB) as Hb'. now rewrite UB in Hb'. }
    rewrite !call_tiles_missing_bias by assumption. reflexivity. }
  rewrite (call_forward_spec self x); auto.
  2:{ unfold Conforming. rewrite D, PS. now split. }
  rewrite (call_forward_spec (with_padding valid self) xp); auto.
  2:{ unfold Conforming. rewrite Dv. split; [exact EC|].
      cbn [with_padding config set_padding padding kernel_size_arg window_fits].
      fold K. lia. }
  f_equal. unfold forward_spec.
  change (activation (config (with_padding valid self)))
    with (activation (config self)).
  assert (FL : forward_linear self x = forward_linear (with_padding valid self) xp).
  { unfold forward_linear. rewrite Dv, D.
    change (data_format (config (with_padding valid self)))
      with (data_format (config self)).
    cbn [with_padding config set_padding padding kernel_size_arg strides_arg
         depth_multiplier].
    rewrite PS, S1. fold K. cbn [new_length].
    replace (((K - 1) / 2 + L + (K - 1 - (K - 1) / 2) - K) / 1 + 1)
      with L by (rewrite Nat.div_1_r; lia).
    replace ((L + 1 - 1) / 1) with L by (rewrite Nat.div_1_r; lia).
    assert (CV : forall b t o, b < B -> t < L ->
              o < C * depth_multiplier (config self) ->
              conv_value self x b t (o / depth_multiplier (config self))
                (o mod depth_multiplier (config self)) =
              conv_value (with_padding valid self) xp b t
                (o / depth_multiplier (config self))
                (o mod depth_multiplier (config self))).
    { intros b t o Hb Ht Ho.
      destruct (channel_split o C _ Ho) as [Hc Hm].
      unfold conv_value.
      change (data_format (config (with_padding valid self)))
        with (data_format (config self)).
      cbn [with_padding config set_padding padding kernel_size_arg strides_arg
           depth_multiplier common_kernel use_bias depthwise_kernel bias].
      rewrite PS, S1. fold K.
      assert (SUM : forall g : nat -> T,
                sum_n K (fun k =>
                  smul (input_padded (data_format (config self)) same K 1
                          x b (t * 1 + k)
                          (o / depth_multiplier (config self))) (g k)) =
                sum_n K (fun k =>
                  smul (input_padded (data_format (config self)) valid K 1
                          xp b (t * 1 + k)
                          (o / depth_multiplier (config self))) (g k))).
      { intros g. apply sum_n_ext. intros k Hk. f_equal.
        unfold input_padded. rewrite D, DP. cbn [fst snd].
        rewrite (left_pad_same_stride1 K L HL). cbn [left_pad].
        rewrite in_range_zero by lia.
        rewrite RP by lia. rewrite Nat.sub_0_r. reflexivity. }
      rewrite SUM. reflexivity. }
    destruct (data_format (config self)); cbn [tab_blc];
      apply tab3_ext; intros; apply CV; assumption. }
  now rewrite FL.
Qed.

End SamePadding.

(** X9 on a concrete operator with an even kernel length: one zero in
    front, two behind. *)
Lemma same_stride1_is_padded_valid_witness :
  call (Fresh.operator (Samples.layer 4 1 same false 1 None None true) 2)
    (Samples.signal 1 6 2) =
  (xp <- pad (Samples.signal 1 6 2) (side_padding channels_last 1 2) ;;
   call (with_padding valid
           (Fresh.operator (Samples.layer 4 1 same false 1 None None true) 2)) xp).
Proof.
  apply (same_stride1_is_padded_valid
           (Fresh.operator (Samples.layer 4 1 same false 1 None None true) 2)
           (Samples.signal 1 6 2) 1 6 2).
  - sample_built.
  - reflexivity.
  - reflexivity.
  - reflexivity.
  - lia.
Defined.

(** ** Build, shape inference and serialization, continued *)

Section BuildAndShapes.
Context {T : Type} `{Scalar T}.

(** X10. [build] reads nothing of the input shape but its rank and its
    channel dimension: two rank-3 shapes with the same channel dimension,
    whatever their batch size and length, known or not, give the same
    operator or the same error. *)
Theorem build_reads_only_the_channel_dimension (cfg : Config T)
    (s1 s2 : list (option nat)) :
  length s1 = 3 -> length s2 = 3 ->
  channel_dim (data_format cfg) s1 = channel_dim (data_format cfg) s2 ->
  build cfg s1 = build cfg s2.
Proof.
  intros L1 L2 E.
  destruct s1 as [|a0 [|a1 [|a2 [|? ?]]]]; try discriminate.
  destruct s2 as [|b0 [|b1 [|b2 [|? ?]]]]; try discriminate.
  rewrite !build_rank3. rewrite !channel_dim_rank3 in E. now rewrite E.
Qed.

(** X11. Shape inference on shapes with unknown entries. With the length
    unknown it returns the shape with [C * M] channels and the length still
    unknown, for every kernel size, stride and padding; with the channel
    count unknown it raises [TypeError]; on a shape of fewer than three
    entries it raises [IndexError]. *)
Theorem compute_output_shape_unknown_entries (cfg : Config T) (n l : pyval)
    (c : Z) :
  compute_output_shape cfg (arrange (data_format cfg) n PyNone (PyInt c)) =
    Ok (arrange (data_format cfg) n PyNone
          (PyInt (c * Z.of_nat (depth_multiplier cfg)))) /\
  compute_output_shape cfg (arrange (data_format cfg) n l PyNone) =
    Err TypeError /\
  compute_output_shape cfg [n; l] = Err IndexError /\
  compute_output_shape cfg [n] = Err IndexError /\
  compute_output_shape cfg [] = Err IndexError.
Proof.
  unfold compute_output_shape.
  destruct (data_format cfg); repeat split; reflexivity.
Qed.


End BuildAndShapes.

Section SerializationBody.
Context {T : Type}.
Local Open Scope string_scope.

Lemma dict_pop_some (k : string) (d : gmap string pyval) :
  is_Some (d !! k) -> dict_pop k d = Ok (delete k d).
Proof. intros [v E]. unfold dict_pop. now rewrite E. Qed.

Lemma dict_pop_none (k : string) (d : gmap string pyval) :
  d !! k = None -> dict_pop k d = Err KeyError.
Proof. intros E. unfold dict_pop. now rewrite E. Qed.

(** X13. What the body of [get_config] does to a base configuration that
    holds the four standard entries: it removes ["filters"],
    ["kernel_initializer"], ["kernel_regularizer"] and
    ["kernel_constraint"], writes the depth multiplier and the serialized
    depthwise initializer, regularizer and constraint, and leaves every
    other entry of the base configuration as it was. *)
Theorem get_config_rest_edits (cfg : Config T) (d : gmap string pyval) :
  is_Some (d !! "filters") ->
  is_Some (d !! "kernel_initializer") ->
  is_Some (d !! "kernel_regularizer") ->
  is_Some (d !! "kernel_constraint") ->
  exists d',
    get_config_rest cfg d = Ok d' /\
    d' !! "filters" = None /\
    d' !! "kernel_initializer" = None /\
    d' !! "kernel_regularizer" = None /\
    d' !! "kernel_constraint" = None /\
    d' !! "depth_multiplier" = Some (PyInt (Z.of_nat (depth_multiplier cfg))) /\
    d' !! "depthwise_initializer" =
      Some (PyStr (init_name (depthwise_initializer cfg))) /\
    d' !! "depthwise_regularizer" =
      Some (serialize_opt (depthwise_regularizer cfg)) /\
    d' !! "depthwise_constraint" =
      Some (serialize_opt (depthwise_constraint cfg)) /\
    forall k,
      k <> "filters" -> k <> "kernel_initializer" ->
      k <> "kernel_regularizer" -> k <> "kernel_constraint" ->
      k <> "depth_multiplier" -> k <> "depthwise_initializer" ->
      k <> "depthwise_regularizer" -> k <> "depthwise_constraint" ->
      d' !! k = d !! k.
Proof.
  intros H1 H2 H3 H4. unfold get_config_rest.
  rewrite (dict_pop_some "filters") by assumption. cbn [rbind].
  rewrite (dict_pop_some "kernel_initializer")
    by (rewrite lookup_delete_ne by discriminate; assumption).
  cbn [rbind].
  rewrite (dict_pop_some "kernel_regularizer")
    by (rewrite !lookup_delete_ne by discriminate; assumption).
  cbn [rbind].
  rewrite (dict_pop_some "kernel_constraint")
    by (rewrite !lookup_delete_ne by discriminate; assumption).
  cbn [rbind].
  eexists. split; [reflexivity|].
  repeat split;
    try (repeat first
           [ rewrite lookup_insert_eq | rewrite lookup_delete_eq
           | rewrite lookup_insert_ne by discriminate
           | rewrite lookup_delete_ne by discriminate ];
         reflexivity).
  intros k N1 N2 N3 N4 N5 N6 N7 N8.
  rewrite !lookup_insert_ne by congruence.
  rewrite !lookup_delete_ne by congruence. reflexivity.
Qed.

(** X14. The body of [get_config] raises [KeyError] exactly when the base
    configuration lacks one of the four standard entries it pops. *)
Theorem get_config_rest_key_error (cfg : Config T) (d : gmap string pyval) :
  get_config_rest cfg d = Err KeyError <->
  (d !! "filters" = None \/ d !! "kernel_initializer" = None \/
   d !! "kernel_regularizer" = None \/ d !! "kernel_constraint" = None).
Proof.
  unfold get_config_rest.
  destruct (d !! "filters") as [v1|] eqn:E1.
  2:{ rewrite (dict_pop_none "filters") by assumption. cbn [rbind]. tauto. }
  rewrite (dict_pop_some "filters") by (rewrite E1; eauto). cbn [rbind].
  destruct (d !! "kernel_initializer") as [v2|] eqn:E2.
  2:{ rewrite (dict_pop_none "kernel_initializer")
        by (rewrite lookup_delete_ne by discriminate; assumption).
      cbn [rbind]. tauto. }
  rewrite (dict_pop_some "kernel_initializer")
    by (rewrite lookup_delete_ne by discriminate; rewrite E2; eauto).
  cbn [rbind].
  destruct (d !! "kernel_regularizer") as [v3|] eqn:E3.
  2:{ rewrite (dict_pop_none "kernel_regularizer")
        by (rewrite !lookup_delete_ne by discriminate; assumption).
      cbn [rbind]. tauto. }
  rewrite (dict_pop_some "kernel_regularizer")
    by (rewrite !lookup_delete_ne by discriminate; rewrite E3; eauto).
  cbn [rbind].
  destruct (d !! "kernel_constraint") as [v4|] eqn:E4.
  2:{ rewrite (dict_pop_none "kernel_constraint")
        by (rewrite !lookup_delete_ne by discriminate; assumption).
      cbn [rbind]. tauto. }
  rewrite (dict_pop_some "kernel_constraint")
    by (rewrite !lookup_delete_ne by discriminate; rewrite E4; eauto).
  cbn [rbind].
  split; [discriminate|]. intros [Q|[Q|[Q|Q]]]; discriminate.
Qed.

End SerializationBody.

(** X10 on two shapes that share only the channel count. *)
Lemma build_reads_only_the_channel_dimension_witness :
  build (Samples.layer 3 1 valid false 2 None None true)
    [None; Some 10; Some 3] =
  build (Samples.layer 3 1 valid false 2 None None true)
    [Some 64; None; Some 3].
Proof.
  apply build_reads_only_the_channel_dimension; reflexivity.
Defined.


(** X13 on the base configuration of a concrete operator. *)
Lemma get_config_rest_edits_witness :
  exists d',
    get_config_rest (Samples.layer 3 1 valid false 2 None None true)
      (Conv_get_config (Samples.layer 3 1 valid false 2 None None true)) = Ok d' /\
    d' !! "kernel_initializer"%string = None /\
    d' !! "depth_multiplier"%string = Some (PyInt 2) /\
    d' !! "kernel_size"%string = Some (PyTuple [3%Z]).
Proof.
  destruct (get_config_rest_edits
              (Samples.layer 3 1 valid false 2 None None true)
              (Conv_get_config (Samples.layer 3 1 valid false 2 None None true)))
    as (d' & E & _ & N & _ & _ & M & _ & _ & _ & K).
  - eexists. vm_compute. reflexivity.
  - eexists. vm_compute. reflexivity.
  - eexists. vm_compute. reflexivity.
  - eexists. vm_compute. reflexivity.
  - exists d'. split; [exact E|]. split; [exact N|]. split; [exact M|].
    rewrite K by discriminate. vm_compute. reflexivity.
Defined.

(** ** The model of [example.py] *)

Section ExampleModel.
Context {T : Type} `{Scalar T}.

Lemma dim3_tmap3 (f : T -> T) (y : Tensor3 T) : dim3 (tmap3 f y) = dim3 y.
Proof. unfold tmap3. apply dim3_tab3. Qed.

Lemma stack_step (l : DepthwiseConv1D T) (relu : T -> T) (y : Tensor3 T)
    (N L : nat) :
  Built l ->
  data_format (config l) = channels_last ->
  activation (config l) = None ->
  common_kernel (config l) = false ->
  dim3 y = (N, L, channels l) ->
  window_fits (padding (config l)) (kernel_size_arg (config l)) L ->
  exists z,
    Layer_call l y = Ok z /\
    dim3 (tmap3 relu z) =
      (N, new_length (padding (config l)) (kernel_size_arg (config l))
            (strides_arg (config l)) L,
       channels l * depth_multiplier (config l)).
Proof.
  intros HB F HA CK D HW.
  assert (Db : blc (data_format (config l)) (dim3 y) = (N, L, channels l))
    by (rewrite F; exact D).
  assert (HC : Conforming l y) by (unfold Conforming; rewrite Db; auto).
  exists (forward_spec l y). split.
  - unfold Layer_call. rewrite (input_check l y N L (channels l) HB Db).
    rewrite Nat.eqb_refl. cbn [rbind].
    apply call_forward_spec; auto. rewrite CK. discriminate.
  - rewrite dim3_tmap3.
    assert (E : Elementwise (activation (config l)) (fun v => v))
      by (rewrite HA; intros v; reflexivity).
    pose proof (forward_spec_dims l y _ N L (channels l) E Db) as Q.
    rewrite F in Q. exact Q.
Qed.

(** X15. The convolution stack of the example model: four depthwise layers
    with kernel sizes 10, 10, 3, 3, padding same, same, valid, valid and
    strides 1, 1, 2, 2, each followed by a ReLU layer. Whatever the weights
    of the built layers and whatever the batch size, an input of length 10
    with 5 channels passes through all of them and comes out with length 1
    and 5 channels, which is what the [Reshape((channels, 1))] that follows
    needs. *)
Theorem example_stack_shape (relu : T -> T)
    (kernel_init bias_init : Initializer T)
    (layers : list (DepthwiseConv1D T)) (x : Tensor3 T) (N : nat) :
  Forall2 (fun l cfg => Built l /\ config l = cfg /\ channels l = 5)
    layers (example_configs kernel_init bias_init) ->
  dim3 x = (N, 10, 5) ->
  exists y, run_stack relu layers x = Ok y /\ dim3 y = (N, 1, 5).
Proof.
  intros HL D. unfold example_configs in HL.
  inversion HL as [|l1 c1 r1 rc1 (B1 & C1 & N1) HL1]; subst; clear HL.
  inversion HL1 as [|l2 c2 r2 rc2 (B2 & C2 & N2) HL2]; subst; clear HL1.
  inversion HL2 as [|l3 c3 r3 rc3 (B3 & C3 & N3) HL3]; subst; clear HL2.
  inversion HL3 as [|l4 c4 r4 rc4 (B4 & C4 & N4) HL4]; subst; clear HL3.
  inversion HL4; subst; clear HL4.
  unfold run_stack. cbn [fold_left rbind].
  destruct (stack_step l1 relu x N 10 B1) as (z1 & E1 & D1);
    rewrite ?C1, ?N1; try reflexivity; try exact D; try exact I.
  rewrite E1. cbn [rbind]. rewrite C1, N1 in D1.
  destruct (stack_step l2 relu (tmap3 relu z1) N 10 B2) as (z2 & E2 & D2);
    rewrite ?C2, ?N2; try reflexivity; try exact D1; try exact I.
  rewrite E2. cbn [rbind]. rewrite C2, N2 in D2.
  destruct (stack_step l3 relu (tmap3 relu z2) N 10 B3) as (z3 & E3 & D3);
    rewrite ?C3, ?N3; try reflexivity; try exact D2;
    try (cbn [example_layer padding kernel_size_arg window_fits]; lia).
  rewrite E3. cbn [rbind]. rewrite C3, N3 in D3.
  destruct (stack_step l4 relu (tmap3 relu z3) N 4 B4) as (z4 & E4 & D4);
    rewrite ?C4, ?N4; try reflexivity; try exact D3;
    try (cbn [example_layer padding kernel_size_arg window_fits]; lia).
  rewrite E4. cbn [rbind]. rewrite C4, N4 in D4.
  eexists. split; [reflexivity|]. exact D4.
Qed.

End ExampleModel.

(** X15 on freshly built layers and a batch of three samples. *)
Lemma example_stack_shape_witness :
  exists y,
    run_stack Fresh.relu
      (map (fun cfg => Fresh.operator cfg 5)
         (example_configs Samples.ramp Samples.ramp))
      (Samples.signal 3 10 5) = Ok y /\
    dim3 y = (3, 1, 5).
Proof.
  apply (example_stack_shape Fresh.relu Samples.ramp Samples.ramp).
  - unfold example_configs. cbn [map].
    repeat (constructor; [split; [sample_built | split; reflexivity] |]).
    constructor.
  - reflexivity.
Defined.

(** ** Strides and bias *)

Section StridesAndBias.
Context {T : Type} `{Scalar T}.

Lemma Built_with_strides (self : DepthwiseConv1D T) :
  Built self -> Built (with_strides 1 self).
Proof. intros [F HK HS Dk Hb Sp]. split; auto. Qed.

Lemma Built_without_bias (self : DepthwiseConv1D T) :
  Built self -> Built (without_bias self).
Proof. intros [F HK HS Dk Hb Sp]. split; auto. reflexivity. Qed.

(** X16. In ['valid'] and ['causal'] mode a stride only subsamples: the
    output of the operator with stride [S] at position [t] is the output of
    the same operator with stride 1 at position [t * S], in every batch
    element and channel. The activation is none or elementwise. *)
Theorem stride_subsamples (self : DepthwiseConv1D T) (x : Tensor3 T)
    (f : T -> T) (B L C b t o : nat) :
  Built self ->
  (common_kernel (config self) = true -> use_bias (config self) = true) ->
  padding (config self) <> same ->
  Elementwise (activation (config self)) f ->
  blc (data_format (config self)) (dim3 x) = (B, L, C) ->
  Conforming self x ->
  b < B ->
  t < new_length (padding (config self)) (kernel_size_arg (config self))
        (strides_arg (config self)) L ->
  o < C * depth_multiplier (config self) ->
  exists y y1,
    call self x = Ok y /\
    call (with_strides 1 self) x = Ok y1 /\
    cell_at (data_format (config self)) y b t o =
    cell_at (data_format (config self)) y1 b (t * strides_arg (config self)) o.
Proof.
  intros HB KS NS E D HC Hb Ht Ho.
  pose proof (Built_with_strides self HB) as HB1.
  pose proof (built_K _ HB) as HK. pose proof (built_S _ HB) as HS.
  exists (forward_spec self x), (forward_spec (with_strides 1 self) x).
  split; [now apply call_forward_spec|].
  split; [now apply call_forward_spec|].
  rewrite (forward_spec_cell self x f B L C) by assumption.
  assert (HW : window_fits (padding (config self))
                 (kernel_size_arg (config self)) L).
  { unfold Conforming in HC. rewrite D in HC. tauto. }
  assert (Ht1 : t * strides_arg (config self) <
                new_length (padding (config self))
                  (kernel_size_arg (config self)) 1 L).
  { pose proof (Nat.Div0.mul_div_le
                  (L - kernel_size_arg (config self)) (strides_arg (config self))).
    pose proof (Nat.Div0.mul_div_le
                  (L + (kernel_size_arg (config self) - 1)
                   - kernel_size_arg (config self)) (strides_arg (config self))).
    destruct (padding (config self)); cbn [new_length window_fits] in *;
      try contradiction; rewrite Nat.div_1_r; nia. }
  pose proof (forward_spec_cell (with_strides 1 self) x f B L C b
                (t * strides_arg (config self)) o E D Hb Ht1 Ho) as Q.
  change (data_format (config (with_strides 1 self)))
    with (data_format (config self)) in Q.
  rewrite Q. f_equal. unfold conv_value.
  change (data_format (config (with_strides 1 self)))
    with (data_format (config self)).
  cbn [with_strides config set_strides padding kernel_size_arg strides_arg
       depth_multiplier common_kernel use_bias depthwise_kernel bias].
  rewrite Nat.mul_1_r.
  assert (SUM : forall g : nat -> T,
            sum_n (kernel_size_arg (config self)) (fun k =>
              smul (input_padded (data_format (config self)) (padding (config self))
                      (kernel_size_arg (config self)) (strides_arg (config self))
                      x b (t * strides_arg (config self) + k)
                      (o / depth_multiplier (config self))) (g k)) =
            sum_n (kernel_size_arg (config self)) (fun k =>
              smul (input_padded (data_format (config self)) (padding (config self))
                      (kernel_size_arg (config self)) 1
                      x b (t * strides_arg (config self) + k)
                      (o / depth_multiplier (config self))) (g k))).
  { intros g. apply sum_n_ext. intros k Hk. f_equal.
    unfold input_padded.
    destruct (padding (config self)); try contradiction; reflexivity. }
  rewrite SUM. reflexivity.
Qed.

(** X17. The bias is added after the reduction, one entry per output
    channel, the same for every batch element and position: with per-channel
    kernels and no activation, each cell of the result is the cell of the
    operator without bias plus the bias entry of its channel. *)
Theorem bias_is_added_per_channel (self : DepthwiseConv1D T) (x : Tensor3 T)
    (B L C b t o : nat) :
  Built self ->
  use_bias (config self) = true ->
  common_kernel (config self) = false ->
  activation (config self) = None ->
  blc (data_format (config self)) (dim3 x) = (B, L, C) ->
  Conforming self x ->
  b < B ->
  t < new_length (padding (config self)) (kernel_size_arg (config self))
        (strides_arg (config self)) L ->
  o < C * depth_multiplier (config self) ->
  exists y y0,
    call self x = Ok y /\
    call (without_bias self) x = Ok y0 /\
    cell_at (data_format (config self)) y b t o =
    sadd (cell_at (data_format (config self)) y0 b t o) (bias_entry self o).
Proof.
  intros HB UB CK HA D HC Hb Ht Ho.
  pose proof (Built_without_bias self HB) as HB0.
  assert (E : Elementwise (activation (config self)) (fun v => v))
    by (rewrite HA; intros v; reflexivity).
  exists (forward_spec self x), (forward_spec (without_bias self) x).
  split; [apply call_forward_spec; auto; rewrite CK; discriminate|].
  split; [apply call_forward_spec; auto;
          cbn [without_bias config set_use_bias common_kernel];
          rewrite CK; discriminate|].
  rewrite (forward_spec_cell self x (fun v => v) B L C) by assumption.
  pose proof (forward_spec_cell (without_bias self) x (fun v => v) B L C b t o
                E D Hb Ht Ho) as Q.
  change (data_format (config (without_bias self)))
    with (data_format (config self)) in Q.
  rewrite Q. unfold conv_value, bias_entry.
  change (data_format (config (without_bias self)))
    with (data_format (config self)).
  cbn [without_bias config set_use_bias padding kernel_size_arg strides_arg
       depth_multiplier common_kernel use_bias depthwise_kernel bias].
  rewrite UB, CK, channel_join.
  destruct (bias self); reflexivity.
Qed.

End StridesAndBias.

(** X16 on a concrete causal operator with stride 3. *)
Lemma stride_subsamples_witness :
  exists y y1,
    call (Fresh.operator (Samples.layer 4 3 causal false 2 None None true) 2)
      (Samples.signal 1 10 2) = Ok y /\
    call (with_strides 1
            (Fresh.operator (Samples.layer 4 3 causal false 2 None None true) 2))
      (Samples.signal 1 10 2) = Ok y1 /\
    get3 y 0 2 3 = get3 y1 0 6 3.
Proof.
  apply (stride_subsamples
           (Fresh.operator (Samples.layer 4 3 causal false 2 None None true) 2)
           (Samples.signal 1 10 2) (fun v => v) 1 10 2 0 2 3).
  - sample_built.
  - discriminate.
  - discriminate.
  - simpl. reflexivity.
  - reflexivity.
  - vm_compute. lia.
  - lia.
  - vm_compute. lia.
  - simpl. lia.
Defined.

(** X17 on a concrete operator. *)
Lemma bias_is_added_per_channel_witness :
  exists y y0,
    call (Fresh.operator (Samples.layer 3 1 same false 2 None None true) 2)
      (Samples.signal 1 6 2) = Ok y /\
    call (without_bias
            (Fresh.operator (Samples.layer 3 1 same false 2 None None true) 2))
      (Samples.signal 1 6 2) = Ok y0 /\
    get3 y 0 5 3 = (get3 y0 0 5 3 + 4000)%Z.
Proof.
  destruct (bias_is_added_per_channel
              (Fresh.operator (Samples.layer 3 1 same false 2 None None true) 2)
              (Samples.signal 1 6 2) 1 6 2 0 5 3)
    as (y & y0 & E1 & E0 & Q).
  - sample_built.
  - reflexivity.
  - reflexivity.
  - reflexivity.
  - reflexivity.
  - vm_compute. lia.
  - lia.
  - vm_compute. lia.
  - simpl. lia.
  - exists y, y0. split; [exact E1|]. split; [exact E0|exact Q].
Defined.
